(** * Blogpad client: feed loader, feed sorter, card renderer, composer, routes

  A shallow embedding of the TypeScript sources

    - [frontend/src/types/blog.ts]               (the [BlogPost] interface)
    - [frontend/src/components/blog/BlogCard.tsx] ([coverImage])
    - [frontend/src/pages/Home.tsx]               ([loadPosts], [sortedPosts], [handleAddBlog])
    - [frontend/src/pages/BlogEditor.tsx]         ([handleChange], [handleSubmit])
    - the [App] component                         (the route table)

  React state is a record that the handlers thread through a small
  state-and-exception monad; everything a handler does to the outside
  world (HTTP requests, console output, timers, navigation) is appended
  to a log, and what the outside world answers (the settled promise of
  an HTTP request, today's date) is an input of the handler. *)

From Stdlib Require Import List String Ascii ZArith Bool Lia.
From Stdlib Require Import Sorted Permutation.
From Stdlib Require Import DecimalString DecimalNat.
Import ListNotations.

#[local] Set Warnings "-register-all".

Local Open Scope string_scope.
Local Open Scope Z_scope.

(* ================================================================== *)
(** * The JavaScript values the sources rely on *)
(* ================================================================== *)

Module JS.

(** A Number as the sources meet it: the time value of a [Date] is an
    integral number of milliseconds or [NaN]. *)
Inductive Number : Type :=
| NaN
| Num (n : Z).

(** [right - left] on Numbers: [NaN] is absorbing. *)
Definition sub (x y : Number) : Number :=
  match x, y with
  | Num a, Num b => Num (a - b)
  | _, _ => NaN
  end.

Definition Number_isNaN (x : Number) : bool :=
  match x with NaN => true | Num _ => false end.

(** Values of a parsed response body.  Array bodies are typed by the
    call site (see [Home.FeedBody]); what is left are the primitives and
    plain objects, an object being its list of properties. *)
Inductive Value : Type :=
| Undefined
| Null
| Bool (b : bool)
| Numeric (n : Z)
| Str (s : string)
| Obj (props : list (string * Value)).

(** ToBoolean. *)
Definition truthy (v : Value) : bool :=
  match v with
  | Undefined | Null => false
  | Bool b => b
  | Numeric n => negb (n =? 0)
  | Str s => negb (s =? "")%string
  | Obj _ => true
  end.

(** [a || b]. *)
Definition or (a b : Value) : Value := if truthy a then a else b.

Fixpoint lookup (key : string) (props : list (string * Value)) : Value :=
  match props with
  | [] => Undefined
  | (k, v) :: rest => if (k =? key)%string then v else lookup key rest
  end.

(** What a rejected promise or a [throw] carries. *)
Record AxiosResponse : Type := mkResponse {
  status : Z;
  data : Value
}.

Inductive Error : Type :=
| AxiosError (response : option AxiosResponse)
| TypeError
| OtherError (name : string).

(** [v.key]: reading a property of [undefined] or [null] throws a
    TypeError; a primitive has no such own property. *)
Definition get (v : Value) (key : string) : Error + Value :=
  match v with
  | Undefined | Null => inl TypeError
  | Obj props => inr (lookup key props)
  | Bool _ | Numeric _ | Str _ => inr Undefined
  end.

(** ** Strings

    A string is its sequence of code units, here the 8-bit range
    (U+0000 to U+00FF).  WhiteSpace and LineTerminator code points in
    that range: TAB, LF, VT, FF, CR, SPACE and NO-BREAK SPACE. *)
Definition isWhiteSpace (c : ascii) : bool :=
  let n := Z.of_nat (nat_of_ascii c) in
  ((9 <=? n) && (n <=? 13)) || (n =? 32) || (n =? 160).

Fixpoint trimStart (s : string) : string :=
  match s with
  | EmptyString => EmptyString
  | String c rest => if isWhiteSpace c then trimStart rest else s
  end.

Fixpoint trimEnd (s : string) : string :=
  match s with
  | EmptyString => EmptyString
  | String c rest =>
      match trimEnd rest with
      | EmptyString => if isWhiteSpace c then EmptyString else String c EmptyString
      | kept => String c kept
      end
  end.

(** [String.prototype.trim]. *)
Definition trim (s : string) : string := trimEnd (trimStart s).

(** ToBoolean of a string: [!s] is [negb (nonEmpty s)]. *)
Definition nonEmpty (s : string) : bool := negb (s =? "")%string.

(** ** [Array.prototype.sort]

    ECMAScript fixes two things about [sort] with a comparator: every
    comparison goes through SortCompare, which turns a [NaN] answer of
    the comparator into [+0], and the sort is stable.  Which elements
    are compared, and in which order, is left to the engine, and so is
    the outcome when the comparator is not a consistent one (a
    comparator that answers [NaN] is not).  The model is the stable
    insertion sort over SortCompare: an element moves past another only
    when SortCompare says it must.  For a consistent comparator every
    stable sort gives this same result; for a comparator that answers
    [NaN] the order it gives is relied on only for feeds on which no
    element is moved. *)
Section Sort.
Context {A : Type}.
Variable comparefn : A -> A -> Number.

Definition SortCompare (x y : A) : Z :=
  match comparefn x y with
  | NaN => 0
  | Num v => v
  end.

Fixpoint insert (x : A) (sorted : list A) : list A :=
  match sorted with
  | [] => [x]
  | y :: rest =>
      if SortCompare x y <=? 0 then x :: sorted else y :: insert x rest
  end.

Definition sort (items : list A) : list A := fold_right insert [] items.
End Sort.

(** ** [new Date(s).getTime()] for the date-only ISO form

    The one format the client itself writes ([toISOString().split("T")[0]],
    that is [YYYY-MM-DD]) read as UTC midnight, for a day that exists in
    its month; every other string is an invalid date here.  Engines
    accept more (further formats, a day past the end of the month rolled
    over), so this function stands for the engine only on well-formed
    dates and on strings without digits; it is used for the concrete
    feeds below, and the sorter takes the time function as a parameter. *)
Definition digit (c : ascii) : option Z :=
  let n := Z.of_nat (nat_of_ascii c) in
  if (48 <=? n) && (n <=? 57) then Some (n - 48) else None.

Fixpoint digits (acc : Z) (cs : list ascii) : option Z :=
  match cs with
  | [] => Some acc
  | c :: rest =>
      match digit c with
      | Some d => digits (10 * acc + d) rest
      | None => None
      end
  end.

Definition isLeap (y : Z) : bool :=
  ((y mod 4 =? 0) && negb (y mod 100 =? 0)) || (y mod 400 =? 0).

Definition daysInMonth (y m : Z) : Z :=
  if m =? 2 then (if isLeap y then 29 else 28)
  else if (m =? 4) || (m =? 6) || (m =? 9) || (m =? 11) then 30
  else 31.

(** Days between 1970-01-01 and the given civil date. *)
Definition dayNumber (y m d : Z) : Z :=
  let y' := if m <=? 2 then y - 1 else y in
  let era := y' / 400 in
  let yoe := y' - era * 400 in
  let mp := if m <=? 2 then m + 9 else m - 3 in
  let doy := (153 * mp + 2) / 5 + d - 1 in
  let doe := yoe * 365 + yoe / 4 - yoe / 100 + doy in
  era * 146097 + doe - 719468.

Definition msPerDay : Z := 86400000.

Definition isoDateTime (s : string) : Number :=
  match list_ascii_of_string s with
  | [y1; y2; y3; y4; "-"%char; m1; m2; "-"%char; d1; d2] =>
      match digits 0 [y1; y2; y3; y4], digits 0 [m1; m2], digits 0 [d1; d2] with
      | Some y, Some m, Some d =>
          if (1 <=? m) && (m <=? 12) && (1 <=? d) && (d <=? daysInMonth y m)
          then Num (dayNumber y m d * msPerDay)
          else NaN
      | _, _, _ => NaN
      end
  | _ => NaN
  end.

End JS.

(* ================================================================== *)
(** * Handlers: state, exceptions and the log of effects *)
(* ================================================================== *)

(** The body of a create request ([payload] in [handleSubmit]). *)
Record Payload : Type := mkPayload {
  payload_title : string;
  payload_authorName : string;
  payload_content : string;
  payload_image : string;
  payload_timestamp : string;
  payload_hasComments : list JS.Value
}.

Inductive Effect : Type :=
| PreventDefault
| HttpGet (url : string)
| HttpPost (url : string) (body : Payload)
| ConsoleError (message : string) (cause : JS.Error)
| NavigateTo (path : string)
| SetTimeout (callback : Effect) (ms : Z).

(** How an awaited promise settles. *)
Inductive Settled (A : Type) : Type :=
| Fulfilled (value : A)
| Rejected (reason : JS.Error).
Arguments Fulfilled {A} value.
Arguments Rejected {A} reason.

Module Handler.

Inductive Completion (A : Type) : Type :=
| Normal (value : A)
| Throw (reason : JS.Error).
Arguments Normal {A} value.
Arguments Throw {A} reason.

(** A handler over component state [S]: from the state and the log so
    far to a completion, the new state and the extended log. *)
Definition M (S A : Type) : Type :=
  S -> list Effect -> Completion A * S * list Effect.

Section Ops.
Context {S : Type}.

Definition ret {A} (a : A) : M S A := fun s log => (Normal a, s, log).

Definition bind {A B} (m : M S A) (k : A -> M S B) : M S B :=
  fun s log =>
    match m s log with
    | (Normal a, s', log') => k a s' log'
    | (Throw e, s', log') => (Throw e, s', log')
    end.

Definition throw {A} (e : JS.Error) : M S A := fun s log => (Throw e, s, log).

Definition read {A} (proj : S -> A) : M S A := fun s log => (Normal (proj s), s, log).

Definition update (f : S -> S) : M S unit := fun s log => (Normal tt, f s, log).

Definition emit (e : Effect) : M S unit := fun s log => (Normal tt, s, (log ++ [e])%list).

(** [await request]: the request goes out, then the promise settles. *)
Definition await {A} (request : Effect) (settles : Settled A) : M S A :=
  bind (emit request)
       (fun _ => match settles with
                 | Fulfilled a => ret a
                 | Rejected e => throw e
                 end).

Definition lift {A} (r : JS.Error + A) : M S A :=
  match r with
  | inl e => throw e
  | inr a => ret a
  end.

(** [try { body } catch (err) { handler } finally { cleanup }]: the
    cleanup runs however body and handler complete; a throw of the
    handler is passed on after it. *)
Definition try_catch_finally (body : M S unit) (handler : JS.Error -> M S unit)
           (cleanup : M S unit) : M S unit :=
  fun s log =>
    let '(c1, s1, log1) :=
      match body s log with
      | (Normal _, s', log') => (Normal tt, s', log')
      | (Throw e, s', log') => handler e s' log'
      end in
    match cleanup s1 log1 with
    | (Normal _, s2, log2) => (c1, s2, log2)
    | (Throw e, s2, log2) => (Throw e, s2, log2)
    end.
End Ops.

Definition completion {S A} (r : Completion A * S * list Effect) : Completion A := fst (fst r).
Definition state {S A} (r : Completion A * S * list Effect) : S := snd (fst r).
Definition effects {S A} (r : Completion A * S * list Effect) : list Effect := snd r.

(** Running a handler on a fresh log. *)
Definition run {S A} (m : M S A) (s : S) : Completion A * S * list Effect := m s [].

End Handler.

Declare Scope handler_scope.
Delimit Scope handler_scope with handler.
Notation "x <- m ;; k" := (Handler.bind m (fun x => k))
(at level 61, m at next level, right associativity) : handler_scope.
Notation "m ;; k" := (Handler.bind m (fun _ => k))
(at level 61, right associativity) : handler_scope.

Local Open Scope handler_scope.

(* ================================================================== *)
(** * [types/blog.ts] *)
(* ================================================================== *)

Module Blog.

(** [interface BlogPost].  [image?: string] is absent ([None]) or a
    string; [hasComments?: Array<unknown> | null] is absent, [null]
    ([Some None]) or an array. *)
Record BlogPost : Type := mkBlogPost {
  id : Z;
  title : string;
  content : string;
  image : option string;
  timestamp : string;
  authorName : string;
  hasComments : option (option (list JS.Value))
}.

End Blog.

(* ================================================================== *)
(** * [components/blog/BlogCard.tsx] *)
(* ================================================================== *)

Module BlogCard.

Definition FALLBACK_IMAGE : string :=
  "https://images.unsplash.com/photo-1520607162513-77705c0f0d4a?auto=format&fit=crop&w=1200&q=80".

(** [post.image && post.image.trim().length ? post.image : FALLBACK_IMAGE] *)
Definition coverImage (post : Blog.BlogPost) : string :=
  match Blog.image post with
  | None => FALLBACK_IMAGE
  | Some img =>
      if JS.nonEmpty img && negb (Nat.eqb (String.length (JS.trim img)) 0)
      then img
      else FALLBACK_IMAGE
  end.

(** [String(n)] for an array length. *)
Definition Number_toString (n : nat) : string :=
  NilEmpty.string_of_uint (Nat.to_uint n).

Section Card.
(** [new Date(timestamp).getTime()] and, for a valid date,
    [toLocaleDateString(undefined, { day, month, year })], which depends
    on the locale of the browser. *)
Variable getTime : string -> JS.Number.
Variable toLocaleDateString : Z -> string.

Definition formatDate (timestamp : string) : string :=
  match getTime timestamp with
  | JS.NaN => timestamp
  | JS.Num t => toLocaleDateString t
  end.

(** What a card puts on screen. *)
Record View : Type := mkView {
  media : string;
  ariaLabel : string;
  eyebrow : string;
  heading : string;
  bodyClass : string;
  body : string;
  author : string;
  meta : option string;
  toggleLabel : string
}.

(** The card of [post]; [expanded] is its one [useState] cell, [false]
    when the card is first shown. *)
Definition render (post : Blog.BlogPost) (expanded : bool) : View :=
  {| media := coverImage post;
     ariaLabel := Blog.title post;
     eyebrow := formatDate (Blog.timestamp post);
     heading := Blog.title post;
     bodyClass := "blog-card__content " ++ (if expanded then "expanded" else "collapsed");
     body := JS.trim (Blog.content post);
     author := Blog.authorName post;
     meta := match Blog.hasComments post with
             | Some (Some comments) =>
                 Some (Number_toString (List.length comments) ++ " comments")
             | _ => None
             end;
     toggleLabel := if expanded then "Show less" else "Read more" |}.

(** [setExpanded((state) => !state)] *)
Definition toggle (expanded : bool) : bool := negb expanded.

End Card.

End BlogCard.

(* ================================================================== *)
(** * [pages/Home.tsx] *)
(* ================================================================== *)

Module Home.

Section Env.
(** [import.meta.env.VITE_API_URL] *)
Variable VITE_API_URL : option string.

Definition API_BASE : string :=
  match VITE_API_URL with
  | Some url => if JS.nonEmpty url then url else "http://localhost:8000"
  | None => "http://localhost:8000"
  end.

(** The three [useState] cells of the component. *)
Record State : Type := mkState {
  posts : list Blog.BlogPost;
  loading : bool;
  error : option string
}.

Definition initial : State := {| posts := []; loading := true; error := None |}.

Definition setPosts (v : list Blog.BlogPost) : Handler.M State unit :=
  Handler.update (fun s => {| posts := v; loading := loading s; error := error s |}).

Definition setLoading (v : bool) : Handler.M State unit :=
  Handler.update (fun s => {| posts := posts s; loading := v; error := error s |}).

Definition setError (v : option string) : Handler.M State unit :=
  Handler.update (fun s => {| posts := posts s; loading := loading s; error := v |}).

(** [response.data]: typed [BlogPost[]] by the call, tested with
    [Array.isArray] at run time, so either an array of posts or a value
    that is not an array. *)
Inductive FeedBody : Type :=
| ArrayBody (items : list Blog.BlogPost)
| OtherBody (v : JS.Value).

Definition Array_isArray (body : FeedBody) : bool :=
  match body with
  | ArrayBody _ => true
  | OtherBody _ => false
  end.

Definition elements (body : FeedBody) : list Blog.BlogPost :=
  match body with
  | ArrayBody items => items
  | OtherBody _ => []
  end.

(** How [axios.get] settles on a 2xx response whose text is not JSON:
    with the settings of the call (none given, so the defaults) the
    promise is fulfilled and [response.data] is the text itself. *)
Definition malformedBody (text : string) : Settled FeedBody :=
  Fulfilled (OtherBody (JS.Str text)).

Definition loadPosts (settles : Settled FeedBody) : Handler.M State unit :=
  setLoading true ;;
  setError None ;;
  Handler.try_catch_finally
    (response_data <- Handler.await (HttpGet (API_BASE ++ "/blogpost/?detailed=true")) settles ;;
     setPosts (if Array_isArray response_data then elements response_data else []))
    (fun err =>
       Handler.emit (ConsoleError "Failed to load blog posts" err) ;;
       setError (Some "Unable to load the blog feed right now. Please try again."))
    (setLoading false).

Definition handleAddBlog : Handler.M State unit :=
  Handler.emit (NavigateTo "/blog/create").

(** [loadPosts] up to its [await]: what has happened, and what React
    shows, while the request is pending. *)
Definition loadPosts_pending : Handler.M State unit :=
  setLoading true ;;
  setError None ;;
  Handler.emit (HttpGet (API_BASE ++ "/blogpost/?detailed=true")).

End Env.

(** ** The feed sorter *)
Section Sorter.
(** [new Date(timestamp).getTime()] *)
Variable getTime : string -> JS.Number.

(** The comparator handed to [sort]. *)
Definition comparePosts (a b : Blog.BlogPost) : JS.Number :=
  let left := getTime (Blog.timestamp a) in
  let right := getTime (Blog.timestamp b) in
  JS.sub right left.

(** [[...posts].sort(...)]: the copy leaves [posts] itself alone. *)
Definition sortedPosts (posts : list Blog.BlogPost) : list Blog.BlogPost :=
  JS.sort comparePosts posts.

End Sorter.

(** ** What the page shows *)
Section View.
Variable getTime : string -> JS.Number.

(** The "Refresh feed" button. *)
Record Button : Type := mkButton {
  disabled : bool;
  label : string
}.

Definition refreshButton (s : State) : Button :=
  {| disabled := loading s;
     label := if loading s then "Refreshing..." else "Refresh feed" |}.

(** The children of the [home-stream] section. *)
Inductive Panel : Type :=
| LoadingPanel
| ErrorPanel (message : string)
| EmptyPanel
| CardsGrid (cards : list Blog.BlogPost).

(** ToBoolean of [error], a string or [null]. *)
Definition hasError (s : State) : bool :=
  match error s with
  | Some message => JS.nonEmpty message
  | None => false
  end.

(** The four guarded children, each rendered or not on its own guard. *)
Definition stream (s : State) : list Panel :=
  ((if loading s then [LoadingPanel] else [])
   ++ (if negb (loading s) && hasError s
       then [ErrorPanel (match error s with Some message => message | None => "" end)]
       else [])
   ++ (if negb (loading s) && negb (hasError s)
          && Nat.eqb (List.length (sortedPosts getTime (posts s))) 0
       then [EmptyPanel] else [])
   ++ (if negb (loading s) && negb (hasError s)
          && Nat.ltb 0 (List.length (sortedPosts getTime (posts s)))
       then [CardsGrid (sortedPosts getTime (posts s))] else []))%list.

End View.

End Home.

(* ================================================================== *)
(** * [pages/BlogEditor.tsx] *)
(* ================================================================== *)

Module BlogEditor.

Definition DEFAULT_IMAGE : string :=
  "https://images.unsplash.com/photo-1520607162513-77705c0f0d4a?auto=format&fit=crop&w=1200&q=80".

(** [interface BlogEditorState] *)
Record BlogEditorState : Type := mkForm {
  title : string;
  authorName : string;
  content : string;
  image : string
}.

Definition emptyForm : BlogEditorState :=
  {| title := ""; authorName := ""; content := ""; image := "" |}.

(** The four [useState] cells.  [error] is declared [string | null]; it
    holds whatever [detail] the response body carries, so it is a value. *)
Record State : Type := mkState {
  formValues : BlogEditorState;
  submitting : bool;
  error : JS.Value;
  success : option string
}.

Definition initial : State :=
  {| formValues := emptyForm; submitting := false; error := JS.Null; success := None |}.

Definition setFormValues (f : BlogEditorState -> BlogEditorState) : Handler.M State unit :=
  Handler.update (fun s => {| formValues := f (formValues s); submitting := submitting s;
                              error := error s; success := success s |}).

Definition setSubmitting (v : bool) : Handler.M State unit :=
  Handler.update (fun s => {| formValues := formValues s; submitting := v;
                              error := error s; success := success s |}).

Definition setError (v : JS.Value) : Handler.M State unit :=
  Handler.update (fun s => {| formValues := formValues s; submitting := submitting s;
                              error := v; success := success s |}).

Definition setSuccess (v : option string) : Handler.M State unit :=
  Handler.update (fun s => {| formValues := formValues s; submitting := submitting s;
                              error := error s; success := v |}).

(** [{ ...prev, [name]: value }].  A name outside the interface would
    add a property that nothing reads. *)
Definition assign (prev : BlogEditorState) (name value : string) : BlogEditorState :=
  if (name =? "title")%string then
    {| title := value; authorName := authorName prev; content := content prev; image := image prev |}
  else if (name =? "authorName")%string then
    {| title := title prev; authorName := value; content := content prev; image := image prev |}
  else if (name =? "content")%string then
    {| title := title prev; authorName := authorName prev; content := value; image := image prev |}
  else if (name =? "image")%string then
    {| title := title prev; authorName := authorName prev; content := content prev; image := value |}
  else prev.

(** [event.target] of a change event. *)
Record ChangeEvent : Type := mkChange {
  name : string;
  value : string
}.

Definition handleChange (event : ChangeEvent) : Handler.M State unit :=
  setFormValues (fun prev => assign prev (name event) (value event)).

Section Env.
Variable VITE_API_URL : option string.

Definition API_BASE : string :=
  match VITE_API_URL with
  | Some url => if JS.nonEmpty url then url else "http://localhost:8000"
  | None => "http://localhost:8000"
  end.

(** [today] is [new Date().toISOString().split("T")[0]]; [settles] is how
    the promise of [axios.post] settles. *)
Definition handleSubmit (today : string) (settles : Settled JS.AxiosResponse)
  : Handler.M State unit :=
  Handler.emit PreventDefault ;;
  form <- Handler.read formValues ;;
  if negb (JS.nonEmpty (JS.trim (title form)))
     || negb (JS.nonEmpty (JS.trim (authorName form)))
     || negb (JS.nonEmpty (JS.trim (content form)))
  then
    setError (JS.Str "Please complete the title, author, and content fields.")
  else
    setSubmitting true ;;
    setError JS.Null ;;
    let payload :=
      {| payload_title := JS.trim (title form);
         payload_authorName := JS.trim (authorName form);
         payload_content := JS.trim (content form);
         payload_image := if JS.nonEmpty (JS.trim (image form))
                          then JS.trim (image form) else DEFAULT_IMAGE;
         payload_timestamp := today;
         payload_hasComments := [] |} in
    Handler.try_catch_finally
      (Handler.await (HttpPost (API_BASE ++ "/blogpost/") payload) settles ;;
       setSuccess (Some "Blog post published.") ;;
       setFormValues (fun _ => emptyForm) ;;
       Handler.emit (SetTimeout (NavigateTo "/home") 800))
      (fun err =>
         match err with
         | JS.AxiosError (Some response) =>
             detail <- Handler.lift (JS.get (JS.data response) "detail") ;;
             setError (JS.or detail (JS.Str "The server rejected this post. Please try again."))
         | _ =>
             setError (JS.Str "Unable to publish right now. Check your connection and try again.")
         end)
      (setSubmitting false).

(** ** The component over time

    What the user can do to the form: edit a field, or submit it, in
    which case the day and the fate of the request come with the event. *)
Inductive Event : Type :=
| Change (event : ChangeEvent)
| Submit (today : string) (settles : Settled JS.AxiosResponse).

Definition handle (ev : Event) : Handler.M State unit :=
  match ev with
  | Change event => handleChange event
  | Submit today settles => handleSubmit today settles
  end.

Definition step (s : State) (ev : Event) : State :=
  Handler.state (Handler.run (handle ev) s).

Definition after (evs : list Event) : State := fold_left step evs initial.

End Env.

(** The Cancel button: [navigate("/home")]. *)
Definition handleCancel : Handler.M State unit :=
  Handler.emit (NavigateTo "/home").

(** The alerts under the form: [error && ...] and [success && ...]. *)
Inductive Alert : Type :=
| ErrorAlert (shown : JS.Value)
| SuccessAlert (shown : string).

Definition alerts (s : State) : list Alert :=
  ((if JS.truthy (error s) then [ErrorAlert (error s)] else [])
   ++ match success s with
      | Some message => if JS.nonEmpty message then [SuccessAlert message] else []
      | None => []
      end)%list.

(** The Publish button; Cancel is disabled on the same flag. *)
Record Button : Type := mkButton {
  disabled : bool;
  label : string
}.

Definition publishButton (s : State) : Button :=
  {| disabled := submitting s;
     label := if submitting s then "Publishing..." else "Publish" |}.

End BlogEditor.

(* ================================================================== *)
(** * The [App] component *)
(* ================================================================== *)

Module App.

(** The page components of the repository. *)
Inductive Page : Type :=
| HomePage
| BlogpostPage
| BlogEditorPage.

Inductive Element : Type :=
| Render (page : Page)
| Navigate (to : string).

Record Route : Type := mkRoute {
  path : string;
  element : Element
}.

(** The children of [<Routes>], in the order written, which is also the
    order in which the router ranks them: static paths, the root, the
    splat. *)
Definition routes : list Route :=
  [ {| path := "/home"; element := Render HomePage |};
    {| path := "/blogpost"; element := Render BlogpostPage |};
    {| path := "/"; element := Navigate "/home" |};
    {| path := "*"; element := Navigate "/home" |} ].

Definition lowerChar (c : ascii) : ascii :=
  let n := nat_of_ascii c in
  if (Nat.leb 65 n && Nat.leb n 90)%bool then ascii_of_nat (n + 32) else c.

Fixpoint lower (s : string) : string :=
  match s with
  | EmptyString => EmptyString
  | String c rest => String (lowerChar c) (lower rest)
  end.

Fixpoint dropTrailingSlashes (s : string) : string :=
  match s with
  | EmptyString => EmptyString
  | String c rest =>
      match dropTrailingSlashes rest with
      | EmptyString => if Ascii.eqb c "/" then EmptyString else String c EmptyString
      | kept => String c kept
      end
  end.

(** A pattern without parameters matches a pathname up to letter case
    and trailing slashes; the splat matches every pathname. *)
Definition matchPath (pattern pathname : string) : bool :=
  if (pattern =? "*")%string then true
  else (lower (dropTrailingSlashes pattern) =? lower (dropTrailingSlashes pathname))%string.

Fixpoint matchRoutes (rs : list Route) (pathname : string) : option Element :=
  match rs with
  | [] => None
  | r :: rest => if matchPath (path r) pathname then Some (element r) else matchRoutes rest pathname
  end.

(** What ends up on screen at a pathname: a [Navigate] element replaces
    the location and the routes are matched again. *)
Fixpoint rendered (fuel : nat) (pathname : string) : option Page :=
  match fuel with
  | O => None
  | S fuel' =>
      match matchRoutes routes pathname with
      | Some (Render page) => Some page
      | Some (Navigate to) => rendered fuel' to
      | None => None
      end
  end.

Definition shows (pathname : string) : option Page :=
  rendered (S (List.length routes)) pathname.

End App.

(* ================================================================== *)
(** * Vocabulary of the properties *)
(* ================================================================== *)

Module Spec.

Section Timestamps.
Variable getTime : string -> JS.Number.

(** The timestamp of a post parses as a calendar date. *)
Definition parses (p : Blog.BlogPost) : bool :=
  negb (JS.Number_isNaN (getTime (Blog.timestamp p))).

(** Every entry whose timestamp does not parse sits after every entry
    whose timestamp parses. *)
Definition UnparseableLast (l : list Blog.BlogPost) : Prop :=
  forall i j x y,
    nth_error l i = Some x -> nth_error l j = Some y ->
    parses x = false -> parses y = true -> (j < i)%nat.

(** No entry dated earlier sits before an entry dated later, among the
    entries whose timestamps parse. *)
Definition NewestFirst (l : list Blog.BlogPost) : Prop :=
  forall i j x y tx ty,
    nth_error l i = Some x -> nth_error l j = Some y ->
    getTime (Blog.timestamp x) = JS.Num tx ->
    getTime (Blog.timestamp y) = JS.Num ty ->
    (i < j)%nat -> ty <= tx.

(** The epoch value of a post, for posts that parse. *)
Definition epoch (p : Blog.BlogPost) : Z :=
  match getTime (Blog.timestamp p) with
  | JS.Num t => t
  | JS.NaN => 0
  end.

(** [a] may stand before [b] in a feed that shows the newest first. *)
Definition notOlder (a b : Blog.BlogPost) : Prop := epoch b <= epoch a.

End Timestamps.

(** Requests among the effects of a handler. *)
Definition isRequest (e : Effect) : bool :=
  match e with
  | HttpGet _ | HttpPost _ _ => true
  | _ => false
  end.

(** Reading a field of the form by its name, [formValues[name]]. *)
Definition field (form : BlogEditor.BlogEditorState) (name : string) : option string :=
  if (name =? "title")%string then Some (BlogEditor.title form)
  else if (name =? "authorName")%string then Some (BlogEditor.authorName form)
  else if (name =? "content")%string then Some (BlogEditor.content form)
  else if (name =? "image")%string then Some (BlogEditor.image form)
  else None.

Definition fieldNames : list string := ["title"; "authorName"; "content"; "image"].

(** The response a rejection carries, if it is an Axios error with one:
    [axios.isAxiosError(err) && err.response]. *)
Definition responseOf (reason : JS.Error) : option JS.AxiosResponse :=
  match reason with
  | JS.AxiosError response => response
  | _ => None
  end.

(** A string is blank when nothing but white space is in it. *)
Definition isBlank (s : string) : bool :=
  forallb JS.isWhiteSpace (list_ascii_of_string s).

(** Sample posts and states for the concrete cases below. *)
Definition post (n : Z) (stamp : string) : Blog.BlogPost :=
  {| Blog.id := n; Blog.title := "Notes"; Blog.content := "Body";
     Blog.image := None; Blog.timestamp := stamp;
     Blog.authorName := "Ada"; Blog.hasComments := Some (Some []) |}.

Definition filled : BlogEditor.State :=
  {| BlogEditor.formValues :=
       {| BlogEditor.title := "Notes"; BlogEditor.authorName := "Ada";
          BlogEditor.content := "Body"; BlogEditor.image := "" |};
     BlogEditor.submitting := false;
     BlogEditor.error := JS.Null;
     BlogEditor.success := None |}.

Definition blankTitle : BlogEditor.State :=
  {| BlogEditor.formValues :=
       {| BlogEditor.title := "   "; BlogEditor.authorName := "Ada";
          BlogEditor.content := "Body"; BlogEditor.image := "" |};
     BlogEditor.submitting := false;
     BlogEditor.error := JS.Null;
     BlogEditor.success := None |}.

(** The requests among the effects of a handler, in order. *)
Definition requests (log : list Effect) : list Effect := filter isRequest log.

Section Keys.
Variable getTime : string -> JS.Number.

(** The post has the time value [k] (all unparseable posts share the
    value [NaN]). *)
Definition hasTime (k : JS.Number) (p : Blog.BlogPost) : bool :=
  match getTime (Blog.timestamp p), k with
  | JS.NaN, JS.NaN => true
  | JS.Num a, JS.Num b => a =? b
  | _, _ => false
  end.

End Keys.

(** A pathname without percent-encoded characters.  The router decodes
    the pathname before it matches, which leaves such a pathname as it
    is. *)
Definition plain (pathname : string) : bool :=
  forallb (fun c => negb (Ascii.eqb c "%")) (list_ascii_of_string pathname).

(** The three required fields of the form survive trimming. *)
Definition complete (form : BlogEditor.BlogEditorState) : Prop :=
  JS.trim (BlogEditor.title form) <> ""
  /\ JS.trim (BlogEditor.authorName form) <> ""
  /\ JS.trim (BlogEditor.content form) <> "".

(** The post a backend hands back when it stores a create body as sent
    under the identifier it assigns. *)
Definition stored (n : Z) (body : Payload) : Blog.BlogPost :=
  {| Blog.id := n;
     Blog.title := payload_title body;
     Blog.content := payload_content body;
     Blog.image := Some (payload_image body);
     Blog.timestamp := payload_timestamp body;
     Blog.authorName := payload_authorName body;
     Blog.hasComments := Some (Some (payload_hasComments body)) |}.

End Spec.

(* ================================================================== *)
(** * The feed sorter *)
(* ================================================================== *)

Local Open Scope list_scope.

Section SortFacts.
Context {A : Type}.
Variable comparefn : A -> A -> JS.Number.

Lemma insert_perm (x : A) (l : list A) :
  Permutation (x :: l) (JS.insert comparefn x l).
Proof.
  induction l as [|y l IH]; simpl.
  - apply Permutation_refl.
  - destruct (JS.SortCompare comparefn x y <=? 0).
    + apply Permutation_refl.
    + eapply perm_trans; [apply perm_swap|]. now apply perm_skip.
Qed.

Lemma sort_perm (l : list A) : Permutation l (JS.sort comparefn l).
Proof.
  induction l as [|x l IH]; simpl.
  - constructor.
  - eapply perm_trans; [apply perm_skip, IH|]. apply insert_perm.
Qed.

Lemma insert_Forall (P : A -> Prop) (x : A) (l : list A) :
  P x -> Forall P l -> Forall P (JS.insert comparefn x l).
Proof.
  intros Hx Hl. eapply Permutation_Forall; [apply insert_perm|].
  now constructor.
Qed.

Lemma sort_Forall (P : A -> Prop) (l : list A) :
  Forall P l -> Forall P (JS.sort comparefn l).
Proof.
  intros Hl. eapply Permutation_Forall; [apply sort_perm|]. exact Hl.
Qed.

End SortFacts.

Section SorterFacts.
Variable getTime : string -> JS.Number.

Local Abbreviation parses := (Spec.parses getTime).
Local Abbreviation comparePosts := (Home.comparePosts getTime).
Local Abbreviation sortedPosts := (Home.sortedPosts getTime).

Lemma compare_parseable (x y : Blog.BlogPost) :
  parses x = true -> parses y = true ->
  JS.SortCompare comparePosts x y = Spec.epoch getTime y - Spec.epoch getTime x.
Proof.
  unfold Spec.parses, JS.SortCompare, Home.comparePosts, JS.sub, Spec.epoch.
  destruct (getTime (Blog.timestamp x)), (getTime (Blog.timestamp y));
    simpl; try discriminate; reflexivity.
Qed.

(** Insertion keeps a list of parseable posts ordered newest first. *)
Lemma insert_sorted (x : Blog.BlogPost) (l : list Blog.BlogPost) :
  parses x = true -> Forall (fun p => parses p = true) l ->
  Sorted (Spec.notOlder getTime) l ->
  Sorted (Spec.notOlder getTime) (JS.insert comparePosts x l).
Proof.
  intros Hx Hl Hs. induction l as [|y l IH]; simpl.
  - repeat constructor.
  - inversion Hl as [|? ? Hy Hl']; subst.
    inversion Hs as [|? ? Hs' Hhd]; subst.
    rewrite (compare_parseable x y Hx Hy).
    destruct (Z.leb_spec (Spec.epoch getTime y - Spec.epoch getTime x) 0) as [Hle|Hgt].
    + constructor; [exact Hs|]. constructor. unfold Spec.notOlder. lia.
    + constructor; [now apply IH|].
      destruct l as [|z l]; simpl.
      * constructor. unfold Spec.notOlder. lia.
      * destruct (JS.SortCompare comparePosts x z <=? 0).
        -- constructor. unfold Spec.notOlder. lia.
        -- inversion Hhd; subst. now constructor.
Qed.

Lemma StronglySorted_nth (l : list Blog.BlogPost) :
  StronglySorted (Spec.notOlder getTime) l ->
  forall i j x y,
    (i < j)%nat -> nth_error l i = Some x -> nth_error l j = Some y ->
    Spec.notOlder getTime x y.
Proof.
  induction 1 as [|a l Hl IH Ha]; intros i j x y Hij Hx Hy.
  - destruct i; discriminate.
  - destruct j as [|j]; [lia|]. simpl in Hy.
    destruct i as [|i]; simpl in Hx.
    + injection Hx as <-. rewrite Forall_forall in Ha.
      apply Ha. eapply nth_error_In; eassumption.
    + apply (IH i j); [lia | assumption | assumption].
Qed.

(** X1.  When every timestamp parses, the output is the input reordered
    with the newest first. *)
Lemma sortedPosts_newest_first_when_all_parse (posts : list Blog.BlogPost) :
  Forall (fun p => parses p = true) posts ->
  Spec.NewestFirst getTime (sortedPosts posts) /\
  Permutation posts (sortedPosts posts).
Proof.
  intros Hall. split; [|apply sort_perm].
  assert (Hs : Sorted (Spec.notOlder getTime) (sortedPosts posts)).
  { unfold Home.sortedPosts. induction Hall as [|x l Hx Hl IH]; simpl.
    - constructor.
    - apply insert_sorted; [exact Hx | now apply sort_Forall | exact IH]. }
  apply Sorted_StronglySorted in Hs.
  - intros i j x y tx ty Hx Hy Htx Hty Hij.
    pose proof (StronglySorted_nth _ Hs i j x y Hij Hx Hy) as Hxy.
    unfold Spec.notOlder, Spec.epoch in Hxy. now rewrite Htx, Hty in Hxy.
  - intros a b c. unfold Spec.notOlder. lia.
Qed.

End SorterFacts.

Lemma isoDateTime_samples :
  JS.isoDateTime "2025-06-01" = JS.Num 1748736000000 /\
  JS.isoDateTime "2026-01-01" = JS.Num 1767225600000 /\
  JS.isoDateTime "unknown" = JS.NaN.
Proof. repeat split; vm_compute; reflexivity. Qed.

(** C1 at the failing input.  A feed of two posts, the first with the
    timestamp "unknown", the second dated 2026-01-01: the one comparison
    answers [NaN], nothing is moved, and the entry whose timestamp does
    not parse is shown before the entry whose timestamp parses, where
    entries that do not parse should come last. *)
Lemma sortedPosts_unparseable_first :
  Home.sortedPosts JS.isoDateTime [Spec.post 1 "unknown"; Spec.post 2 "2026-01-01"]
    = [Spec.post 1 "unknown"; Spec.post 2 "2026-01-01"] /\
  ~ Spec.UnparseableLast JS.isoDateTime
      (Home.sortedPosts JS.isoDateTime [Spec.post 1 "unknown"; Spec.post 2 "2026-01-01"]).
Proof.
  split; [vm_compute; reflexivity|].
  intros H.
  specialize (H 0%nat 1%nat (Spec.post 1 "unknown") (Spec.post 2 "2026-01-01")).
  assert (Hlt : (1 < 0)%nat) by (apply H; vm_compute; reflexivity).
  lia.
Qed.

(** C4 at the failing input.  With an unparseable entry between them, a
    post dated 2025-06-01 stays in front of a post dated 2026-01-01: the
    output is the input, and it is not ordered newest first. *)
Theorem sortedPosts_unordered_across_unparseable :
  Home.sortedPosts JS.isoDateTime
    [Spec.post 1 "2025-06-01"; Spec.post 2 "unknown"; Spec.post 3 "2026-01-01"]
    = [Spec.post 1 "2025-06-01"; Spec.post 2 "unknown"; Spec.post 3 "2026-01-01"] /\
  ~ Spec.NewestFirst JS.isoDateTime
      (Home.sortedPosts JS.isoDateTime
         [Spec.post 1 "2025-06-01"; Spec.post 2 "unknown"; Spec.post 3 "2026-01-01"]).
Proof.
  split; [vm_compute; reflexivity|].
  intros H.
  specialize (H 0%nat 2%nat (Spec.post 1 "2025-06-01") (Spec.post 3 "2026-01-01")
                1748736000000 1767225600000).
  assert (Hle : 1767225600000 <= 1748736000000).
  { apply H; try (vm_compute; reflexivity). lia. }
  lia.
Qed.

(* ================================================================== *)
(** * The feed loader *)
(* ================================================================== *)

Ltac run_handler :=
  unfold Handler.run, Handler.try_catch_finally, Handler.await, Handler.lift,
    Handler.bind, Handler.emit, Handler.update, Handler.read, Handler.ret,
    Handler.throw, Handler.state, Handler.effects, Handler.completion;
  simpl.

(** C7 (as amended).  Whenever the feed request is rejected (no
    response, a response with an error status, or anything else thrown),
    the held posts are those held before the call and the error is the
    one fixed message.  A malformed body is not among the failures: it
    arrives as a value that is not an array and empties the feed. *)
Theorem loadPosts_failure_keeps_posts
  (env : option string) (s : Home.State) (reason : JS.Error) :
  Home.posts (Handler.state (Handler.run (Home.loadPosts env (Rejected reason)) s))
    = Home.posts s /\
  Home.error (Handler.state (Handler.run (Home.loadPosts env (Rejected reason)) s))
    = Some "Unable to load the blog feed right now. Please try again.".
Proof.
  unfold Home.loadPosts, Home.setPosts, Home.setLoading, Home.setError.
  run_handler. split; reflexivity.
Qed.

(** C7 (as stated) fails.  A 2xx response with a malformed body while
    one post is held: the load empties the held posts and sets no error. *)
Lemma loadPosts_malformed_body_empties_feed :
  Home.posts (Handler.state (Handler.run
    (Home.loadPosts None (Home.malformedBody "<html>Bad gateway</html>"))
    {| Home.posts := [Spec.post 1 "2026-01-01"]; Home.loading := false;
       Home.error := None |})) = [] /\
  Home.posts (Handler.state (Handler.run
    (Home.loadPosts None (Home.malformedBody "<html>Bad gateway</html>"))
    {| Home.posts := [Spec.post 1 "2026-01-01"]; Home.loading := false;
       Home.error := None |})) <> [Spec.post 1 "2026-01-01"] /\
  Home.error (Handler.state (Handler.run
    (Home.loadPosts None (Home.malformedBody "<html>Bad gateway</html>"))
    {| Home.posts := [Spec.post 1 "2026-01-01"]; Home.loading := false;
       Home.error := None |})) = None.
Proof.
  split; [vm_compute; reflexivity|]. split; [vm_compute; discriminate|].
  vm_compute. reflexivity.
Qed.

(** C8.  For every response whose body is not an array, the load
    completes with an empty collection of posts and no error. *)
Theorem loadPosts_non_array_is_empty
  (env : option string) (s : Home.State) (body : Home.FeedBody) :
  Home.Array_isArray body = false ->
  Handler.completion (Handler.run (Home.loadPosts env (Fulfilled body)) s)
    = Handler.Normal tt /\
  Home.posts (Handler.state (Handler.run (Home.loadPosts env (Fulfilled body)) s)) = [] /\
  Home.error (Handler.state (Handler.run (Home.loadPosts env (Fulfilled body)) s)) = None.
Proof.
  intros Hbody.
  unfold Home.loadPosts, Home.setPosts, Home.setLoading, Home.setError.
  run_handler. rewrite Hbody. simpl. repeat split; reflexivity.
Qed.

Lemma loadPosts_non_array_is_empty_witness :
  Home.Array_isArray (Home.OtherBody (JS.Obj [("count", JS.Numeric 3)])) = false /\
  Home.posts (Handler.state (Handler.run
    (Home.loadPosts None (Fulfilled (Home.OtherBody (JS.Obj [("count", JS.Numeric 3)]))))
    {| Home.posts := [Spec.post 1 "2026-01-01"]; Home.loading := false;
       Home.error := Some "stale" |})) = [].
Proof.
  split; [reflexivity|].
  apply (loadPosts_non_array_is_empty None
           {| Home.posts := [Spec.post 1 "2026-01-01"]; Home.loading := false;
              Home.error := Some "stale" |}
           (Home.OtherBody (JS.Obj [("count", JS.Numeric 3)]))).
  reflexivity.
Defined.

(** On success with an array, the held posts are replaced by it. *)
Lemma loadPosts_array_replaces
  (env : option string) (s : Home.State) (items : list Blog.BlogPost) :
  Handler.state (Handler.run (Home.loadPosts env (Fulfilled (Home.ArrayBody items))) s)
    = {| Home.posts := items; Home.loading := false; Home.error := None |}.
Proof.
  unfold Home.loadPosts, Home.setPosts, Home.setLoading, Home.setError.
  run_handler. reflexivity.
Qed.

(* ================================================================== *)
(** * The card renderer *)
(* ================================================================== *)

Lemma trimEnd_empty (s : string) :
  JS.trimEnd s = "" <-> Spec.isBlank s = true.
Proof.
  unfold Spec.isBlank. induction s as [|c s IH]; simpl.
  - split; reflexivity.
  - destruct (JS.trimEnd s) eqn:Hs.
    + destruct (JS.isWhiteSpace c); simpl.
      * split; intros _; [now apply IH | reflexivity].
      * split; discriminate.
    + split; [discriminate|].
      intros H. apply andb_true_iff in H. destruct H as [_ H].
      apply IH in H. discriminate.
Qed.

Lemma trimStart_blank (s : string) :
  Spec.isBlank (JS.trimStart s) = Spec.isBlank s.
Proof.
  unfold Spec.isBlank. induction s as [|c s IH]; simpl; [reflexivity|].
  destruct (JS.isWhiteSpace c) eqn:Hc; simpl; [exact IH|].
  now rewrite Hc.
Qed.

(** Trimming leaves nothing exactly when the string is blank. *)
Lemma trim_empty (s : string) : JS.trim s = "" <-> Spec.isBlank s = true.
Proof.
  unfold JS.trim. rewrite trimEnd_empty. now rewrite trimStart_blank.
Qed.

Lemma nonEmpty_false (s : string) : JS.nonEmpty s = false <-> s = "".
Proof.
  unfold JS.nonEmpty. destruct (String.eqb_spec s ""); simpl; split; congruence.
Qed.

Lemma length_zero (s : string) : Nat.eqb (String.length s) 0 = true <-> s = "".
Proof.
  destruct s; simpl; split; congruence.
Qed.

(** C9.  The cover image of a post is its [image] when that is present
    and not blank, the fallback URL otherwise, and is never blank. *)
Theorem coverImage_resolves (post : Blog.BlogPost) :
  BlogCard.coverImage post
    = match Blog.image post with
      | Some img => if Spec.isBlank img then BlogCard.FALLBACK_IMAGE else img
      | None => BlogCard.FALLBACK_IMAGE
      end /\
  Spec.isBlank (BlogCard.coverImage post) = false /\
  JS.trim (BlogCard.coverImage post) <> "".
Proof.
  assert (Hfb : Spec.isBlank BlogCard.FALLBACK_IMAGE = false) by (vm_compute; reflexivity).
  assert (Hcover : BlogCard.coverImage post
    = match Blog.image post with
      | Some img => if Spec.isBlank img then BlogCard.FALLBACK_IMAGE else img
      | None => BlogCard.FALLBACK_IMAGE
      end).
  { unfold BlogCard.coverImage. destruct (Blog.image post) as [img|]; [|reflexivity].
    destruct (Spec.isBlank img) eqn:Hb.
    - apply trim_empty in Hb. rewrite Hb. simpl. now rewrite andb_false_r.
    - destruct (Nat.eqb (String.length (JS.trim img)) 0) eqn:Hlen.
      + apply length_zero, trim_empty in Hlen. congruence.
      + destruct (JS.nonEmpty img) eqn:Hne; [reflexivity|].
        apply nonEmpty_false in Hne. subst img. discriminate. }
  assert (Hnb : Spec.isBlank (BlogCard.coverImage post) = false).
  { rewrite Hcover. destruct (Blog.image post) as [img|]; [|exact Hfb].
    destruct (Spec.isBlank img) eqn:Hb; [exact Hfb | exact Hb]. }
  repeat split; [exact Hcover | exact Hnb |].
  intros Htrim. apply trim_empty in Htrim. congruence.
Qed.

(* ================================================================== *)
(** * The composer *)
(* ================================================================== *)

Ltac run_editor :=
  unfold BlogEditor.handleSubmit, BlogEditor.handleChange, BlogEditor.setFormValues,
    BlogEditor.setSubmitting, BlogEditor.setError, BlogEditor.setSuccess;
  run_handler.

(** C10.  A change event naming one of the four fields replaces that
    field by the value of the event and leaves the other fields as they
    were. *)
Theorem handleChange_replaces_named_field
  (s : BlogEditor.State) (event : BlogEditor.ChangeEvent) :
  In (BlogEditor.name event) Spec.fieldNames ->
  Spec.field (BlogEditor.formValues (Handler.state (Handler.run (BlogEditor.handleChange event) s)))
             (BlogEditor.name event)
    = Some (BlogEditor.value event) /\
  forall other,
    other <> BlogEditor.name event ->
    Spec.field (BlogEditor.formValues (Handler.state (Handler.run (BlogEditor.handleChange event) s)))
               other
      = Spec.field (BlogEditor.formValues s) other.
Proof.
  intros Hname. destruct event as [name value]. simpl in *.
  run_editor.
  destruct Hname as [<-|[<-|[<-|[<-|[]]]]]; (split; [reflexivity|]);
    intros other Hother; unfold BlogEditor.assign, Spec.field; simpl;
    repeat match goal with
           | |- context [String.eqb other ?k] =>
               destruct (String.eqb_spec other k); [congruence|]
           end; reflexivity.
Qed.

Lemma handleChange_replaces_named_field_witness :
  In "content" Spec.fieldNames /\
  Spec.field (BlogEditor.formValues (Handler.state (Handler.run
      (BlogEditor.handleChange {| BlogEditor.name := "content"; BlogEditor.value := "Draft" |})
      Spec.filled))) "content" = Some "Draft".
Proof.
  assert (H : In "content" Spec.fieldNames) by (simpl; tauto).
  split; [exact H|].
  apply (handleChange_replaces_named_field Spec.filled
           {| BlogEditor.name := "content"; BlogEditor.value := "Draft" |} H).
Defined.

(** A change touches nothing but the form values. *)
Lemma handleChange_frame (s : BlogEditor.State) (event : BlogEditor.ChangeEvent) :
  let s' := Handler.state (Handler.run (BlogEditor.handleChange event) s) in
  BlogEditor.submitting s' = BlogEditor.submitting s /\
  BlogEditor.error s' = BlogEditor.error s /\
  BlogEditor.success s' = BlogEditor.success s.
Proof. run_editor. repeat split; reflexivity. Qed.

Section ComposerFacts.
Variable env : option string.

Local Abbreviation submit := (BlogEditor.handleSubmit env).

(** The test that opens [handleSubmit]. *)
Lemma incomplete_test (form : BlogEditor.BlogEditorState) :
  negb (JS.nonEmpty (JS.trim (BlogEditor.title form)))
  || negb (JS.nonEmpty (JS.trim (BlogEditor.authorName form)))
  || negb (JS.nonEmpty (JS.trim (BlogEditor.content form))) = true
  <-> JS.trim (BlogEditor.title form) = ""
      \/ JS.trim (BlogEditor.authorName form) = ""
      \/ JS.trim (BlogEditor.content form) = "".
Proof.
  rewrite !orb_true_iff, !negb_true_iff, !nonEmpty_false. tauto.
Qed.

Lemma complete_test (form : BlogEditor.BlogEditorState) :
  JS.trim (BlogEditor.title form) <> "" ->
  JS.trim (BlogEditor.authorName form) <> "" ->
  JS.trim (BlogEditor.content form) <> "" ->
  negb (JS.nonEmpty (JS.trim (BlogEditor.title form)))
  || negb (JS.nonEmpty (JS.trim (BlogEditor.authorName form)))
  || negb (JS.nonEmpty (JS.trim (BlogEditor.content form))) = false.
Proof.
  intros Ht Ha Hc.
  destruct (_ || _ || _) eqn:H; [|reflexivity].
  apply incomplete_test in H. tauto.
Qed.

(** What a submit of an incomplete form amounts to. *)
Lemma handleSubmit_incomplete
  (today : string) (settles : Settled JS.AxiosResponse) (s : BlogEditor.State) :
  JS.trim (BlogEditor.title (BlogEditor.formValues s)) = ""
  \/ JS.trim (BlogEditor.authorName (BlogEditor.formValues s)) = ""
  \/ JS.trim (BlogEditor.content (BlogEditor.formValues s)) = "" ->
  Handler.run (submit today settles) s
    = (Handler.Normal tt,
       {| BlogEditor.formValues := BlogEditor.formValues s;
          BlogEditor.submitting := BlogEditor.submitting s;
          BlogEditor.error := JS.Str "Please complete the title, author, and content fields.";
          BlogEditor.success := BlogEditor.success s |},
       [PreventDefault]).
Proof.
  intros H. apply incomplete_test in H. run_editor. rewrite H. reflexivity.
Qed.

(** Past the validation, the [finally] block has the last word on the
    submitting flag, also when the [catch] block itself throws. *)
Lemma handleSubmit_complete_clears
  (today : string) (settles : Settled JS.AxiosResponse) (s : BlogEditor.State) :
  JS.trim (BlogEditor.title (BlogEditor.formValues s)) <> "" ->
  JS.trim (BlogEditor.authorName (BlogEditor.formValues s)) <> "" ->
  JS.trim (BlogEditor.content (BlogEditor.formValues s)) <> "" ->
  BlogEditor.submitting (Handler.state (Handler.run (submit today settles) s)) = false.
Proof.
  intros Ht Ha Hc. run_editor. rewrite (complete_test _ Ht Ha Hc).
  destruct settles as [response|reason]; simpl; [reflexivity|].
  destruct reason as [[response|]| |name]; simpl; try reflexivity.
  destruct (JS.get (JS.data response) "detail"); reflexivity.
Qed.

Lemma incomplete_dec (form : BlogEditor.BlogEditorState) :
  (JS.trim (BlogEditor.title form) = ""
   \/ JS.trim (BlogEditor.authorName form) = ""
   \/ JS.trim (BlogEditor.content form) = "")
  \/ (JS.trim (BlogEditor.title form) <> ""
      /\ JS.trim (BlogEditor.authorName form) <> ""
      /\ JS.trim (BlogEditor.content form) <> "").
Proof.
  destruct (string_dec (JS.trim (BlogEditor.title form)) "");
  destruct (string_dec (JS.trim (BlogEditor.authorName form)) "");
  destruct (string_dec (JS.trim (BlogEditor.content form)) ""); tauto.
Qed.

(** A submit never raises the flag for good: it ends with the flag as
    low as it found it. *)
Lemma handleSubmit_keeps_idle
  (today : string) (settles : Settled JS.AxiosResponse) (s : BlogEditor.State) :
  BlogEditor.submitting s = false ->
  BlogEditor.submitting (Handler.state (Handler.run (submit today settles) s)) = false.
Proof.
  intros Hidle.
  destruct (incomplete_dec (BlogEditor.formValues s)) as [Hinc|(Ht & Ha & Hc)].
  - rewrite (handleSubmit_incomplete today settles s Hinc). exact Hidle.
  - now apply handleSubmit_complete_clears.
Qed.

(** Between two events the component is never submitting. *)
Lemma after_idle (evs : list BlogEditor.Event) :
  BlogEditor.submitting (BlogEditor.after env evs) = false.
Proof.
  unfold BlogEditor.after.
  assert (H : forall s, BlogEditor.submitting s = false ->
                        BlogEditor.submitting (fold_left (BlogEditor.step env) evs s) = false).
  { induction evs as [|ev evs IH]; intros s Hs; simpl; [exact Hs|].
    apply IH. unfold BlogEditor.step, BlogEditor.handle.
    destruct ev as [event|today settles].
    - destruct (handleChange_frame s event) as [-> _]. exact Hs.
    - now apply handleSubmit_keeps_idle. }
  apply H. reflexivity.
Qed.

(** C5.  In whatever state a run of edits and submits has left the
    component, a submit ends with the submitting flag false, whether it
    stops at validation, the request succeeds, or the request is
    rejected or throws. *)
Theorem handleSubmit_ends_not_submitting
  (evs : list BlogEditor.Event) (today : string) (settles : Settled JS.AxiosResponse) :
  BlogEditor.submitting
    (Handler.state (Handler.run (submit today settles) (BlogEditor.after env evs))) = false.
Proof.
  apply handleSubmit_keeps_idle, after_idle.
Qed.

(** C6.  When the title, the author name or the content trims to the
    empty string, a submit sends no request, sets the fixed validation
    message and leaves the form values as entered. *)
Theorem handleSubmit_incomplete_is_local
  (today : string) (settles : Settled JS.AxiosResponse) (s : BlogEditor.State) :
  JS.trim (BlogEditor.title (BlogEditor.formValues s)) = ""
  \/ JS.trim (BlogEditor.authorName (BlogEditor.formValues s)) = ""
  \/ JS.trim (BlogEditor.content (BlogEditor.formValues s)) = "" ->
  existsb Spec.isRequest (Handler.effects (Handler.run (submit today settles) s)) = false /\
  BlogEditor.error (Handler.state (Handler.run (submit today settles) s))
    = JS.Str "Please complete the title, author, and content fields." /\
  BlogEditor.formValues (Handler.state (Handler.run (submit today settles) s))
    = BlogEditor.formValues s.
Proof.
  intros H. rewrite (handleSubmit_incomplete today settles s H).
  repeat split; reflexivity.
Qed.

(** C2 (as amended).  When the create request of a complete form fails:
    with a response whose body has a non-empty string as [detail], that
    string is the error; with a response whose body has no [detail] or a
    falsy one (the empty string among them), the error is the fixed
    "server rejected" message; without a response, the error is the
    fixed connectivity message. *)
Theorem handleSubmit_failure_message
  (today : string) (s : BlogEditor.State) :
  JS.trim (BlogEditor.title (BlogEditor.formValues s)) <> "" ->
  JS.trim (BlogEditor.authorName (BlogEditor.formValues s)) <> "" ->
  JS.trim (BlogEditor.content (BlogEditor.formValues s)) <> "" ->
  (forall response message,
     JS.get (JS.data response) "detail" = inr (JS.Str message) -> message <> "" ->
     BlogEditor.error (Handler.state (Handler.run
       (submit today (Rejected (JS.AxiosError (Some response)))) s))
       = JS.Str message) /\
  (forall response detail,
     JS.get (JS.data response) "detail" = inr detail -> JS.truthy detail = false ->
     BlogEditor.error (Handler.state (Handler.run
       (submit today (Rejected (JS.AxiosError (Some response)))) s))
       = JS.Str "The server rejected this post. Please try again.") /\
  (forall reason,
     Spec.responseOf reason = None ->
     BlogEditor.error (Handler.state (Handler.run (submit today (Rejected reason)) s))
       = JS.Str "Unable to publish right now. Check your connection and try again.").
Proof.
  intros Ht Ha Hc. repeat split.
  - intros response message Hget Hmsg. run_editor.
    rewrite (complete_test _ Ht Ha Hc). simpl. rewrite Hget. simpl.
    unfold JS.or. simpl.
    destruct (String.eqb_spec message ""); [contradiction | reflexivity].
  - intros response detail Hget Hfalsy. run_editor.
    rewrite (complete_test _ Ht Ha Hc). simpl. rewrite Hget. simpl.
    unfold JS.or. rewrite Hfalsy. reflexivity.
  - intros reason Hnone. run_editor.
    rewrite (complete_test _ Ht Ha Hc). simpl.
    destruct reason as [[response|]| |name]; simpl in *;
      [discriminate | reflexivity | reflexivity | reflexivity].
Qed.

(** A complete form whose request succeeds: fields cleared, success
    message set, navigation to the feed scheduled after 800 ms. *)
Lemma handleSubmit_success
  (today : string) (response : JS.AxiosResponse) (s : BlogEditor.State) :
  JS.trim (BlogEditor.title (BlogEditor.formValues s)) <> "" ->
  JS.trim (BlogEditor.authorName (BlogEditor.formValues s)) <> "" ->
  JS.trim (BlogEditor.content (BlogEditor.formValues s)) <> "" ->
  Handler.state (Handler.run (submit today (Fulfilled response)) s)
    = {| BlogEditor.formValues := BlogEditor.emptyForm;
         BlogEditor.submitting := false;
         BlogEditor.error := JS.Null;
         BlogEditor.success := Some "Blog post published." |} /\
  last (Handler.effects (Handler.run (submit today (Fulfilled response)) s)) PreventDefault
    = SetTimeout (NavigateTo "/home") 800.
Proof.
  intros Ht Ha Hc. run_editor. rewrite (complete_test _ Ht Ha Hc).
  split; reflexivity.
Qed.

End ComposerFacts.

Lemma handleSubmit_incomplete_is_local_witness :
  (JS.trim (BlogEditor.title (BlogEditor.formValues Spec.blankTitle)) = ""
   \/ JS.trim (BlogEditor.authorName (BlogEditor.formValues Spec.blankTitle)) = ""
   \/ JS.trim (BlogEditor.content (BlogEditor.formValues Spec.blankTitle)) = "") /\
  existsb Spec.isRequest (Handler.effects (Handler.run
    (BlogEditor.handleSubmit None "2026-01-01" (Fulfilled (JS.mkResponse 201 JS.Null)))
    Spec.blankTitle)) = false.
Proof.
  assert (H : JS.trim (BlogEditor.title (BlogEditor.formValues Spec.blankTitle)) = ""
              \/ JS.trim (BlogEditor.authorName (BlogEditor.formValues Spec.blankTitle)) = ""
              \/ JS.trim (BlogEditor.content (BlogEditor.formValues Spec.blankTitle)) = "")
    by (left; reflexivity).
  split; [exact H|].
  apply (handleSubmit_incomplete_is_local None "2026-01-01"
           (Fulfilled (JS.mkResponse 201 JS.Null)) Spec.blankTitle H).
Defined.

(** C2 (as stated) fails.  The backend answers 400 with the body [{}],
    which has no [detail]: the error shown is the "server rejected"
    message, not the connectivity message. *)
Lemma handleSubmit_rejected_without_detail :
  JS.get (JS.Obj []) "detail" = inr JS.Undefined /\
  BlogEditor.error (Handler.state (Handler.run
    (BlogEditor.handleSubmit None "2026-01-01"
       (Rejected (JS.AxiosError (Some (JS.mkResponse 400 (JS.Obj []))))))
    Spec.filled))
    = JS.Str "The server rejected this post. Please try again." /\
  BlogEditor.error (Handler.state (Handler.run
    (BlogEditor.handleSubmit None "2026-01-01"
       (Rejected (JS.AxiosError (Some (JS.mkResponse 400 (JS.Obj []))))))
    Spec.filled))
    <> JS.Str "Unable to publish right now. Check your connection and try again.".
Proof.
  repeat split; try (vm_compute; reflexivity).
  vm_compute. discriminate.
Qed.

Lemma handleSubmit_failure_message_witness :
  (JS.trim (BlogEditor.title (BlogEditor.formValues Spec.filled)) <> "" /\
   JS.trim (BlogEditor.authorName (BlogEditor.formValues Spec.filled)) <> "" /\
   JS.trim (BlogEditor.content (BlogEditor.formValues Spec.filled)) <> "") /\
  BlogEditor.error (Handler.state (Handler.run
    (BlogEditor.handleSubmit None "2026-01-01"
       (Rejected (JS.AxiosError (Some
          (JS.mkResponse 400 (JS.Obj [("detail", JS.Str "title too long")]))))))
    Spec.filled))
    = JS.Str "title too long".
Proof.
  assert (Ht : JS.trim (BlogEditor.title (BlogEditor.formValues Spec.filled)) <> "")
    by (vm_compute; discriminate).
  assert (Ha : JS.trim (BlogEditor.authorName (BlogEditor.formValues Spec.filled)) <> "")
    by (vm_compute; discriminate).
  assert (Hc : JS.trim (BlogEditor.content (BlogEditor.formValues Spec.filled)) <> "")
    by (vm_compute; discriminate).
  split; [repeat split; assumption|].
  apply (proj1 (handleSubmit_failure_message None "2026-01-01" Spec.filled Ht Ha Hc)).
  - reflexivity.
  - discriminate.
Defined.

(* ================================================================== *)
(** * The routes *)
(* ================================================================== *)

(** Whatever the pathname, the first matching route renders the feed,
    renders the curated page, or sends the browser to "/home". *)
Lemma matchRoutes_cases (pathname : string) :
  App.matchRoutes App.routes pathname = Some (App.Render App.HomePage)
  \/ App.matchRoutes App.routes pathname = Some (App.Render App.BlogpostPage)
  \/ App.matchRoutes App.routes pathname = Some (App.Navigate "/home").
Proof.
  unfold App.routes. cbn [App.matchRoutes App.path App.element].
  destruct (App.matchPath "/home" pathname); [now left|].
  destruct (App.matchPath "/blogpost" pathname); [now right; left|].
  destruct (App.matchPath "/" pathname); [now right; right|].
  right; right. reflexivity.
Qed.

Lemma shows_home : App.shows "/home" = Some App.HomePage.
Proof. vm_compute. reflexivity. Qed.

Lemma shows_blogpost : App.shows "/blogpost" = Some App.BlogpostPage.
Proof. vm_compute. reflexivity. Qed.

(** Every pathname shows the feed or the curated page; a pathname that
    matches neither "/home" nor "/blogpost" is redirected to the feed. *)
Lemma shows_cases (pathname : string) :
  App.shows pathname = Some App.HomePage \/ App.shows pathname = Some App.BlogpostPage.
Proof.
  unfold App.shows. change (List.length App.routes) with 4%nat.
  cbn [App.rendered].
  destruct (matchRoutes_cases pathname) as [H|[H|H]]; rewrite H.
  - now left.
  - now right.
  - left. reflexivity.
Qed.

(** X20.  A pathname without percent-encoded characters that matches
    neither "/home" nor "/blogpost" is answered with the redirect to
    "/home", and so ends on the feed. *)
Lemma unknown_path_redirects (pathname : string) :
  Spec.plain pathname = true ->
  App.matchPath "/home" pathname = false ->
  App.matchPath "/blogpost" pathname = false ->
  App.matchRoutes App.routes pathname = Some (App.Navigate "/home") /\
  App.shows pathname = Some App.HomePage.
Proof.
  intros _ Hhome Hblog.
  assert (H : App.matchRoutes App.routes pathname = Some (App.Navigate "/home")).
  { unfold App.routes. cbn [App.matchRoutes App.path App.element].
    rewrite Hhome, Hblog. now destruct (App.matchPath "/" pathname). }
  split; [exact H|].
  unfold App.shows. change (List.length App.routes) with 4%nat.
  cbn [App.rendered]. rewrite H. reflexivity.
Qed.

(** C3 at the failing input.  "Add Blog" navigates to "/blog/create";
    the route table has no route for it, so the splat route redirects to
    "/home" and the feed is shown again.  No pathname at all shows the
    editor page. *)
Theorem add_blog_path_shows_feed (s : Home.State) :
  Handler.effects (Handler.run Home.handleAddBlog s) = [NavigateTo "/blog/create"] /\
  App.matchRoutes App.routes "/blog/create" = Some (App.Navigate "/home") /\
  App.shows "/blog/create" = Some App.HomePage /\
  forall pathname, App.shows pathname <> Some App.BlogEditorPage.
Proof.
  repeat split; try (vm_compute; reflexivity).
  intros pathname H. destruct (shows_cases pathname) as [H'|H']; congruence.
Qed.

(* ================================================================== *)
(** * Further properties: trimming *)
(* ================================================================== *)

Lemma trimEnd_idempotent (s : string) : JS.trimEnd (JS.trimEnd s) = JS.trimEnd s.
Proof.
  induction s as [|c s IH]; simpl; [reflexivity|].
  destruct (JS.trimEnd s) as [|k ks] eqn:Hs.
  - destruct (JS.isWhiteSpace c) eqn:Hc; simpl; [reflexivity|]. now rewrite Hc.
  - simpl in *. rewrite IH. reflexivity.
Qed.

Lemma trimStart_head (s : string) :
  JS.trimStart s = ""
  \/ exists c rest, JS.trimStart s = String c rest /\ JS.isWhiteSpace c = false.
Proof.
  induction s as [|c s IH]; simpl; [now left|].
  destruct (JS.isWhiteSpace c) eqn:Hc; [exact IH|].
  right. now exists c, s.
Qed.

Lemma trimStart_trim (s : string) : JS.trimStart (JS.trim s) = JS.trim s.
Proof.
  unfold JS.trim.
  destruct (trimStart_head s) as [->|(c & rest & -> & Hc)]; [reflexivity|].
  simpl. destruct (JS.trimEnd rest); rewrite ?Hc; simpl; now rewrite Hc.
Qed.

(** Trimming what is trimmed changes nothing. *)
Lemma trim_idempotent (s : string) : JS.trim (JS.trim s) = JS.trim s.
Proof.
  unfold JS.trim at 1. rewrite trimStart_trim.
  unfold JS.trim. apply trimEnd_idempotent.
Qed.

(* ================================================================== *)
(** * Further properties: the feed sorter *)
(* ================================================================== *)

Section SorterOrder.
Variable getTime : string -> JS.Number.

Local Abbreviation comparePosts := (Home.comparePosts getTime).
Local Abbreviation sortedPosts := (Home.sortedPosts getTime).

(** An entry is moved past another only when both timestamps parse and
    the entry passed is strictly newer. *)
Lemma moves_past (x y : Blog.BlogPost) :
  (JS.SortCompare comparePosts x y <=? 0) = false ->
  exists tx ty,
    getTime (Blog.timestamp x) = JS.Num tx /\
    getTime (Blog.timestamp y) = JS.Num ty /\ tx < ty.
Proof.
  unfold JS.SortCompare, Home.comparePosts, JS.sub.
  destruct (getTime (Blog.timestamp x)) as [|tx], (getTime (Blog.timestamp y)) as [|ty];
    simpl; intros H; try discriminate.
  exists tx, ty. apply Z.leb_gt in H. repeat split; lia.
Qed.

Lemma insert_filter (k : JS.Number) (x : Blog.BlogPost) (l : list Blog.BlogPost) :
  filter (Spec.hasTime getTime k) (JS.insert comparePosts x l)
    = filter (Spec.hasTime getTime k) (x :: l).
Proof.
  induction l as [|y l IH]; [reflexivity|].
  cbn [JS.insert].
  destruct (JS.SortCompare comparePosts x y <=? 0) eqn:Hxy; [reflexivity|].
  destruct (moves_past x y Hxy) as (tx & ty & Hx & Hy & Hlt).
  cbn [filter] in *. rewrite IH.
  assert (Hkx : Spec.hasTime getTime k x && Spec.hasTime getTime k y = false).
  { unfold Spec.hasTime. rewrite Hx, Hy. destruct k as [|kt]; [reflexivity|].
    destruct (Z.eqb_spec tx kt), (Z.eqb_spec ty kt); try reflexivity. lia. }
  destruct (Spec.hasTime getTime k x), (Spec.hasTime getTime k y); try reflexivity.
  discriminate.
Qed.

Lemma sort_fixed (l : list Blog.BlogPost) :
  Sorted (fun a b => (JS.SortCompare comparePosts a b <=? 0) = true) l ->
  JS.sort comparePosts l = l.
Proof.
  induction 1 as [|x l Hl IH Hhd]; simpl; [reflexivity|].
  rewrite IH. destruct Hhd as [|y l Hxy]; simpl; [reflexivity|]. now rewrite Hxy.
Qed.

Lemma insert_settled (x : Blog.BlogPost) (l : list Blog.BlogPost) :
  Sorted (fun a b => (JS.SortCompare comparePosts a b <=? 0) = true) l ->
  Sorted (fun a b => (JS.SortCompare comparePosts a b <=? 0) = true)
         (JS.insert comparePosts x l).
Proof.
  assert (Hback : forall a b, (JS.SortCompare comparePosts a b <=? 0) = false ->
                              (JS.SortCompare comparePosts b a <=? 0) = true).
  { intros a b Hab. destruct (moves_past a b Hab) as (ta & tb & Ha & Hb & Hlt).
    unfold JS.SortCompare, Home.comparePosts, JS.sub. rewrite Ha, Hb.
    apply Z.leb_le. lia. }
  induction l as [|y l IH]; intros Hs; cbn [JS.insert].
  - repeat constructor.
  - destruct (JS.SortCompare comparePosts x y <=? 0) eqn:Hxy.
    + constructor; [exact Hs|]. now constructor.
    + inversion Hs as [|? ? Hs' Hhd]; subst.
      constructor; [now apply IH|].
      destruct l as [|z l]; cbn [JS.insert].
      * constructor. now apply Hback.
      * destruct (JS.SortCompare comparePosts x z <=? 0).
        -- constructor. now apply Hback.
        -- inversion Hhd; subst. now constructor.
Qed.

(** X2.  Whatever the timestamps, the sorted feed is the held posts
    reordered: none is dropped, none is shown twice. *)
Theorem sortedPosts_permutation (posts : list Blog.BlogPost) :
  Permutation posts (sortedPosts posts) /\
  List.length (sortedPosts posts) = List.length posts.
Proof.
  assert (H : Permutation posts (sortedPosts posts)) by apply sort_perm.
  split; [exact H|]. symmetry. now apply Permutation_length.
Qed.

Lemma sort_keeps_groups (posts : list Blog.BlogPost) (k : JS.Number) :
  filter (Spec.hasTime getTime k) (sortedPosts posts)
    = filter (Spec.hasTime getTime k) posts.
Proof.
  unfold Home.sortedPosts. induction posts as [|x l IH]; [reflexivity|].
  cbn [JS.sort fold_right]. fold (JS.sort comparePosts l).
  rewrite insert_filter. cbn [filter]. now rewrite IH.
Qed.

Lemma sort_settled (posts : list Blog.BlogPost) :
  Sorted (fun a b => (JS.SortCompare comparePosts a b <=? 0) = true) (sortedPosts posts).
Proof.
  unfold Home.sortedPosts. induction posts as [|x l IH]; simpl.
  - constructor.
  - now apply insert_settled.
Qed.

(** X3.  On a feed whose timestamps all parse the sort is stable: the
    posts of one and the same date come out in the order in which they
    went in. *)
Theorem sortedPosts_stable (posts : list Blog.BlogPost) (t : Z) :
  Forall (fun p => Spec.parses getTime p = true) posts ->
  filter (Spec.hasTime getTime (JS.Num t)) (sortedPosts posts)
    = filter (Spec.hasTime getTime (JS.Num t)) posts.
Proof.
  intros _. apply sort_keeps_groups.
Qed.

(** X5.  On a feed whose timestamps all parse, sorting the sorted feed
    again changes nothing. *)
Theorem sortedPosts_idempotent (posts : list Blog.BlogPost) :
  Forall (fun p => Spec.parses getTime p = true) posts ->
  sortedPosts (sortedPosts posts) = sortedPosts posts.
Proof.
  intros _. unfold Home.sortedPosts at 1. apply sort_fixed, sort_settled.
Qed.

End SorterOrder.

Lemma sortedPosts_stable_witness :
  Forall (fun p => Spec.parses JS.isoDateTime p = true)
         [Spec.post 1 "2025-06-01"; Spec.post 2 "2026-01-01"; Spec.post 3 "2025-06-01"] /\
  filter (Spec.hasTime JS.isoDateTime (JS.Num 1748736000000))
         (Home.sortedPosts JS.isoDateTime
            [Spec.post 1 "2025-06-01"; Spec.post 2 "2026-01-01"; Spec.post 3 "2025-06-01"])
    = filter (Spec.hasTime JS.isoDateTime (JS.Num 1748736000000))
             [Spec.post 1 "2025-06-01"; Spec.post 2 "2026-01-01"; Spec.post 3 "2025-06-01"].
Proof.
  assert (H : Forall (fun p => Spec.parses JS.isoDateTime p = true)
         [Spec.post 1 "2025-06-01"; Spec.post 2 "2026-01-01"; Spec.post 3 "2025-06-01"])
    by (repeat constructor).
  split; [exact H|].
  apply (sortedPosts_stable JS.isoDateTime _ 1748736000000 H).
Defined.

Lemma sortedPosts_idempotent_witness :
  Forall (fun p => Spec.parses JS.isoDateTime p = true)
         [Spec.post 1 "2025-06-01"; Spec.post 2 "2026-01-01"] /\
  Home.sortedPosts JS.isoDateTime
    (Home.sortedPosts JS.isoDateTime [Spec.post 1 "2025-06-01"; Spec.post 2 "2026-01-01"])
    = Home.sortedPosts JS.isoDateTime [Spec.post 1 "2025-06-01"; Spec.post 2 "2026-01-01"].
Proof.
  assert (H : Forall (fun p => Spec.parses JS.isoDateTime p = true)
         [Spec.post 1 "2025-06-01"; Spec.post 2 "2026-01-01"])
    by (repeat constructor).
  split; [exact H|].
  apply (sortedPosts_idempotent JS.isoDateTime _ H).
Defined.

Lemma sortedPosts_newest_first_when_all_parse_witness :
  Forall (fun p => Spec.parses JS.isoDateTime p = true)
         [Spec.post 1 "2025-06-01"; Spec.post 2 "2026-01-01"] /\
  Spec.NewestFirst JS.isoDateTime
    (Home.sortedPosts JS.isoDateTime [Spec.post 1 "2025-06-01"; Spec.post 2 "2026-01-01"]).
Proof.
  assert (H : Forall (fun p => Spec.parses JS.isoDateTime p = true)
                     [Spec.post 1 "2025-06-01"; Spec.post 2 "2026-01-01"])
    by (repeat constructor).
  split; [exact H|].
  apply (sortedPosts_newest_first_when_all_parse JS.isoDateTime _ H).
Defined.

(* ================================================================== *)
(** * Further properties: the feed page *)
(* ================================================================== *)

Ltac run_loader :=
  unfold Home.loadPosts, Home.loadPosts_pending, Home.setPosts, Home.setLoading,
    Home.setError;
  run_handler.

(** X6.  However the request settles and whatever was held before, a
    load completes without throwing, leaves the loading flag down, and
    has sent exactly one request: the GET of the detailed feed. *)
Theorem loadPosts_always_settles
  (env : option string) (s : Home.State) (settles : Settled Home.FeedBody) :
  Handler.completion (Handler.run (Home.loadPosts env settles) s) = Handler.Normal tt /\
  Home.loading (Handler.state (Handler.run (Home.loadPosts env settles) s)) = false /\
  Spec.requests (Handler.effects (Handler.run (Home.loadPosts env settles) s))
    = [HttpGet (Home.API_BASE env ++ "/blogpost/?detailed=true")%string].
Proof.
  run_loader. destruct settles as [body|reason]; simpl; repeat split; reflexivity.
Qed.

(** X7.  A load that succeeds overwrites all three cells: the state it
    leaves does not depend on the state it found, so an earlier error is
    gone and the earlier posts are replaced. *)
Theorem loadPosts_success_forgets
  (env : option string) (s s' : Home.State) (body : Home.FeedBody) :
  Handler.state (Handler.run (Home.loadPosts env (Fulfilled body)) s)
    = Handler.state (Handler.run (Home.loadPosts env (Fulfilled body)) s') /\
  Home.error (Handler.state (Handler.run (Home.loadPosts env (Fulfilled body)) s)) = None.
Proof.
  run_loader. split; reflexivity.
Qed.

Section PageFacts.
Variable getTime : string -> JS.Number.

Lemma length_sorted_zero (posts : list Blog.BlogPost) :
  Nat.eqb (List.length (Home.sortedPosts getTime posts)) 0
    = match posts with [] => true | _ => false end.
Proof.
  unfold Home.sortedPosts.
  rewrite <- (Permutation_length (sort_perm (Home.comparePosts getTime) posts)).
  now destruct posts.
Qed.

Lemma length_sorted_pos (posts : list Blog.BlogPost) :
  Nat.ltb 0 (List.length (Home.sortedPosts getTime posts))
    = match posts with [] => false | _ => true end.
Proof.
  unfold Home.sortedPosts.
  rewrite <- (Permutation_length (sort_perm (Home.comparePosts getTime) posts)).
  now destruct posts.
Qed.

(** The four guards of the stream amount to one cascade. *)
Lemma stream_cascade (s : Home.State) :
  Home.stream getTime s
    = [ if Home.loading s then Home.LoadingPanel
        else if Home.hasError s
             then Home.ErrorPanel (match Home.error s with
                                   | Some message => message
                                   | None => ""
                                   end)
             else match Home.posts s with
                  | [] => Home.EmptyPanel
                  | _ => Home.CardsGrid (Home.sortedPosts getTime (Home.posts s))
                  end ].
Proof.
  unfold Home.stream. rewrite length_sorted_zero, length_sorted_pos.
  destruct (Home.loading s); simpl; [reflexivity|].
  destruct (Home.hasError s); simpl; [reflexivity|].
  now destruct (Home.posts s).
Qed.

(** X8.  In every state the stream shows exactly one of its four
    children: the loading notice while loading; otherwise the error if
    there is one; otherwise the empty notice or the grid of all held
    posts.  Posts held while loading or under an error are not shown. *)
Theorem stream_shows_one_panel (s : Home.State) :
  exists panel,
    Home.stream getTime s = [panel] /\
    (Home.loading s = true -> panel = Home.LoadingPanel) /\
    (Home.loading s = false -> Home.hasError s = true ->
     exists message, Home.error s = Some message /\ panel = Home.ErrorPanel message) /\
    (Home.loading s = false -> Home.hasError s = false -> Home.posts s = [] ->
     panel = Home.EmptyPanel) /\
    (Home.loading s = false -> Home.hasError s = false -> Home.posts s <> [] ->
     panel = Home.CardsGrid (Home.sortedPosts getTime (Home.posts s))).
Proof.
  rewrite stream_cascade. eexists. split; [reflexivity|].
  repeat split.
  - now intros ->.
  - intros -> Herr. rewrite Herr. unfold Home.hasError in Herr.
    destruct (Home.error s) as [message|]; [|discriminate]. now exists message.
  - now intros -> -> ->.
  - intros -> -> Hposts. destruct (Home.posts s); [contradiction | reflexivity].
Qed.

(** X9.  What the page shows once a load has settled: after a failure
    the fixed error alone, also when posts are held; after a body that
    is not an array, or an empty array, the empty notice; after an array
    of posts, the grid of those posts sorted.  The refresh button is
    enabled again in each case. *)
Theorem page_after_load (env : option string) (s : Home.State) :
  (forall reason,
     Home.stream getTime (Handler.state (Handler.run (Home.loadPosts env (Rejected reason)) s))
       = [Home.ErrorPanel "Unable to load the blog feed right now. Please try again."]) /\
  (forall body,
     Home.elements body = [] ->
     Home.stream getTime (Handler.state (Handler.run (Home.loadPosts env (Fulfilled body)) s))
       = [Home.EmptyPanel]) /\
  (forall item items,
     Home.stream getTime
       (Handler.state (Handler.run
          (Home.loadPosts env (Fulfilled (Home.ArrayBody (item :: items)))) s))
       = [Home.CardsGrid (Home.sortedPosts getTime (item :: items))]) /\
  (forall settles,
     Home.refreshButton (Handler.state (Handler.run (Home.loadPosts env settles) s))
       = {| Home.disabled := false; Home.label := "Refresh feed" |}).
Proof.
  split; [|split; [|split]].
  - intros reason. rewrite stream_cascade. run_loader. reflexivity.
  - intros body Hbody. rewrite stream_cascade. run_loader.
    destruct body as [items|v]; simpl in *; [now rewrite Hbody | reflexivity].
  - intros item items. rewrite stream_cascade. run_loader. reflexivity.
  - intros settles. run_loader. now destruct settles.
Qed.

(** X10.  While the request is pending the page shows the loading
    notice alone, the refresh button is disabled and reads
    "Refreshing...", an earlier error is already cleared and the posts
    held are untouched. *)
Theorem page_while_loading (env : option string) (s : Home.State) :
  Home.stream getTime (Handler.state (Handler.run (Home.loadPosts_pending env) s))
    = [Home.LoadingPanel] /\
  Home.refreshButton (Handler.state (Handler.run (Home.loadPosts_pending env) s))
    = {| Home.disabled := true; Home.label := "Refreshing..." |} /\
  Home.error (Handler.state (Handler.run (Home.loadPosts_pending env) s)) = None /\
  Home.posts (Handler.state (Handler.run (Home.loadPosts_pending env) s)) = Home.posts s /\
  Handler.effects (Handler.run (Home.loadPosts_pending env) s)
    = firstn 1 (Handler.effects (Handler.run (Home.loadPosts env (Rejected JS.TypeError)) s)).
Proof.
  rewrite stream_cascade. run_loader. repeat split; reflexivity.
Qed.

End PageFacts.

(* ================================================================== *)
(** * Further properties: the composer *)
(* ================================================================== *)

Lemma complete_passes (form : BlogEditor.BlogEditorState) :
  Spec.complete form ->
  negb (JS.nonEmpty (JS.trim (BlogEditor.title form)))
  || negb (JS.nonEmpty (JS.trim (BlogEditor.authorName form)))
  || negb (JS.nonEmpty (JS.trim (BlogEditor.content form))) = false.
Proof.
  intros (Ht & Ha & Hc).
  destruct (_ || _ || _) eqn:H; [|reflexivity].
  rewrite !orb_true_iff, !negb_true_iff, !nonEmpty_false in H. tauto.
Qed.

Lemma complete_filled : Spec.complete (BlogEditor.formValues Spec.filled).
Proof. repeat split; vm_compute; discriminate. Qed.

Lemma emptyForm_incomplete : ~ Spec.complete BlogEditor.emptyForm.
Proof. intros (Ht & _). apply Ht. reflexivity. Qed.

Section ComposerMore.
Variable env : option string.

Local Abbreviation submit := (BlogEditor.handleSubmit env).

(** X11.  A complete form sends exactly one request, however it
    settles: a POST to the collection the feed is read from, whose title,
    author and content are the trimmed fields (not empty, and with no
    white space left to trim), whose image is not blank (the trimmed
    field, or the default image when the field is blank), dated with
    the day given and without comments. *)
Theorem handleSubmit_sends_trimmed
  (today : string) (settles : Settled JS.AxiosResponse) (s : BlogEditor.State) :
  Spec.complete (BlogEditor.formValues s) ->
  exists body,
    Spec.requests (Handler.effects (Handler.run (submit today settles) s))
      = [HttpPost (Home.API_BASE env ++ "/blogpost/")%string body] /\
    payload_title body = JS.trim (BlogEditor.title (BlogEditor.formValues s)) /\
    payload_authorName body = JS.trim (BlogEditor.authorName (BlogEditor.formValues s)) /\
    payload_content body = JS.trim (BlogEditor.content (BlogEditor.formValues s)) /\
    (JS.trim (payload_title body) = payload_title body /\ payload_title body <> "") /\
    (JS.trim (payload_authorName body) = payload_authorName body
     /\ payload_authorName body <> "") /\
    (JS.trim (payload_content body) = payload_content body /\ payload_content body <> "") /\
    payload_image body
      = (if Spec.isBlank (BlogEditor.image (BlogEditor.formValues s))
         then BlogEditor.DEFAULT_IMAGE
         else JS.trim (BlogEditor.image (BlogEditor.formValues s))) /\
    Spec.isBlank (payload_image body) = false /\
    payload_timestamp body = today /\
    payload_hasComments body = [].
Proof.
  intros Hc. pose proof Hc as (Ht & Ha & Hb).
  eexists. split.
  - run_editor. rewrite (complete_passes _ Hc).
    destruct settles as [response|reason]; simpl; [reflexivity|].
    destruct reason as [[response|]| |name]; simpl; try reflexivity.
    destruct (JS.get (JS.data response) "detail"); reflexivity.
  - cbn [payload_title payload_authorName payload_content payload_image
          payload_timestamp payload_hasComments].
    rewrite !trim_idempotent.
    assert (Himg : (if JS.nonEmpty (JS.trim (BlogEditor.image (BlogEditor.formValues s)))
                    then JS.trim (BlogEditor.image (BlogEditor.formValues s))
                    else BlogEditor.DEFAULT_IMAGE)
                   = (if Spec.isBlank (BlogEditor.image (BlogEditor.formValues s))
                      then BlogEditor.DEFAULT_IMAGE
                      else JS.trim (BlogEditor.image (BlogEditor.formValues s)))).
    { destruct (Spec.isBlank (BlogEditor.image (BlogEditor.formValues s))) eqn:Hbl.
      - apply trim_empty in Hbl. now rewrite Hbl.
      - destruct (JS.nonEmpty (JS.trim (BlogEditor.image (BlogEditor.formValues s)))) eqn:Hne;
          [reflexivity|].
        apply nonEmpty_false, trim_empty in Hne. congruence. }
    rewrite Himg. repeat split; try assumption.
    destruct (Spec.isBlank (BlogEditor.image (BlogEditor.formValues s))) eqn:Hbl.
    + vm_compute. reflexivity.
    + destruct (Spec.isBlank (JS.trim (BlogEditor.image (BlogEditor.formValues s)))) eqn:Hbl2;
        [|reflexivity].
      apply trim_empty in Hbl2. rewrite trim_idempotent in Hbl2.
      apply trim_empty in Hbl2. congruence.
Qed.

Lemma handleSubmit_failure_keeps_form_aux
  (today : string) (reason : JS.Error) (s : BlogEditor.State) :
  Spec.complete (BlogEditor.formValues s) ->
  BlogEditor.success (Handler.state (Handler.run (submit today (Rejected reason)) s))
    = BlogEditor.success s.
Proof.
  intros Hc. run_editor. rewrite (complete_passes _ Hc).
  destruct reason as [[response|]| |name]; simpl; try reflexivity.
  destruct (JS.get (JS.data response) "detail"); reflexivity.
Qed.

(** X12.  A request that fails costs the user nothing typed: whatever
    the rejection carries, the form values and the success message are
    what they were, and the submitting flag is down. *)
Theorem handleSubmit_failure_keeps_form
  (today : string) (reason : JS.Error) (s : BlogEditor.State) :
  Spec.complete (BlogEditor.formValues s) ->
  BlogEditor.formValues (Handler.state (Handler.run (submit today (Rejected reason)) s))
    = BlogEditor.formValues s /\
  BlogEditor.success (Handler.state (Handler.run (submit today (Rejected reason)) s))
    = BlogEditor.success s /\
  BlogEditor.submitting (Handler.state (Handler.run (submit today (Rejected reason)) s))
    = false.
Proof.
  intros Hc. run_editor. rewrite (complete_passes _ Hc).
  destruct reason as [[response|]| |name]; simpl; try (repeat split; reflexivity).
  destruct (JS.get (JS.data response) "detail"); repeat split; reflexivity.
Qed.

(** X13.  The handler throws in one case only: a complete form whose
    request is rejected with a response whose body is [null] or
    [undefined] (reading [detail] of it is a TypeError).  Then no error
    message is set at all.  In every other case it completes normally. *)
Theorem handleSubmit_throws_only_on_null_body
  (today : string) (settles : Settled JS.AxiosResponse) (s : BlogEditor.State) :
  (Handler.completion (Handler.run (submit today settles) s) = Handler.Normal tt
   \/ Handler.completion (Handler.run (submit today settles) s) = Handler.Throw JS.TypeError
      /\ BlogEditor.error (Handler.state (Handler.run (submit today settles) s)) = JS.Null) /\
  (Handler.completion (Handler.run (submit today settles) s) = Handler.Throw JS.TypeError
   <-> Spec.complete (BlogEditor.formValues s)
       /\ exists response,
            settles = Rejected (JS.AxiosError (Some response))
            /\ (JS.data response = JS.Null \/ JS.data response = JS.Undefined)).
Proof.
  destruct (incomplete_dec (BlogEditor.formValues s)) as [Hinc|Hc].
  - rewrite (handleSubmit_incomplete env today settles s Hinc).
    split; [now left|]. split; [discriminate|].
    intros ((Ht & Ha & Hb) & _). tauto.
  - change (Spec.complete (BlogEditor.formValues s)) in Hc.
    run_editor. rewrite (complete_passes _ Hc).
    destruct settles as [response|reason]; simpl.
    { split; [now left|]. split; [discriminate|].
      intros (_ & response' & H & _). discriminate. }
    destruct reason as [[response|]| |name]; simpl;
      try (split; [now left|]; split; [discriminate|];
           intros (_ & response' & H & _); discriminate).
    destruct response as [status data]. simpl.
    destruct data; simpl;
      try (split; [now left|]; split; [discriminate|];
           intros (_ & response' & H & [H'|H']); injection H as <-; discriminate).
    + split; [now right|]. split; [|reflexivity].
      intros _. split; [exact Hc|]. eexists. split; [reflexivity|]. now right.
    + split; [now right|]. split; [|reflexivity].
      intros _. split; [exact Hc|]. eexists. split; [reflexivity|]. now left.
Qed.

(** X14.  Submitting again right after a success does not post twice:
    the form has been cleared, so the second submit stops at validation
    with no request, and the page then shows the validation error and
    the earlier success message side by side. *)
Theorem resubmit_after_success_is_local
  (today today' : string) (response : JS.AxiosResponse)
  (settles : Settled JS.AxiosResponse) (s : BlogEditor.State) :
  Spec.complete (BlogEditor.formValues s) ->
  Spec.requests
    (Handler.effects (Handler.run (submit today' settles)
       (Handler.state (Handler.run (submit today (Fulfilled response)) s)))) = [] /\
  BlogEditor.alerts
    (Handler.state (Handler.run (submit today' settles)
       (Handler.state (Handler.run (submit today (Fulfilled response)) s))))
    = [BlogEditor.ErrorAlert
         (JS.Str "Please complete the title, author, and content fields.");
       BlogEditor.SuccessAlert "Blog post published."].
Proof.
  intros (Ht & Ha & Hb).
  destruct (handleSubmit_success env today response s Ht Ha Hb) as [-> _].
  rewrite handleSubmit_incomplete by (left; reflexivity).
  split; reflexivity.
Qed.

Lemma step_success (s : BlogEditor.State) (ev : BlogEditor.Event) :
  BlogEditor.success (BlogEditor.step env s ev) = BlogEditor.success s
  \/ BlogEditor.success (BlogEditor.step env s ev) = Some "Blog post published.".
Proof.
  unfold BlogEditor.step, BlogEditor.handle. destruct ev as [event|today settles].
  - left. apply handleChange_frame.
  - destruct (incomplete_dec (BlogEditor.formValues s)) as [Hinc|Hc].
    + left. now rewrite (handleSubmit_incomplete env today settles s Hinc).
    + destruct settles as [response|reason].
      * right. destruct Hc as (Ht & Ha & Hb).
        now destruct (handleSubmit_success env today response s Ht Ha Hb) as [-> _].
      * left. now apply handleSubmit_failure_keeps_form_aux.
Qed.

End ComposerMore.

Section ComposerRuns.
Variable env : option string.

Lemma run_success_from (evs : list BlogEditor.Event) (s : BlogEditor.State) :
  BlogEditor.success (fold_left (BlogEditor.step env) evs s) = BlogEditor.success s
  \/ BlogEditor.success (fold_left (BlogEditor.step env) evs s)
     = Some "Blog post published.".
Proof.
  revert s. induction evs as [|ev evs IH]; intros s; simpl; [now left|].
  destruct (IH (BlogEditor.step env s ev)) as [H|H]; [|now right].
  rewrite H. apply step_success.
Qed.

(** X15.  Nothing ever clears the success message: once a post has been
    published, the message stays through every later edit and submit,
    failed ones included. *)
Theorem success_message_stays
  (before later : list BlogEditor.Event) (message : string) :
  BlogEditor.success (BlogEditor.after env before) = Some message ->
  BlogEditor.success (BlogEditor.after env (before ++ later)) = Some message.
Proof.
  intros Hm. unfold BlogEditor.after in *. rewrite fold_left_app.
  destruct (run_success_from before BlogEditor.initial) as [H|H];
    [rewrite H in Hm; discriminate|].
  assert (message = "Blog post published.") by congruence. subst message.
  destruct (run_success_from later (fold_left (BlogEditor.step env) before BlogEditor.initial))
    as [H'|H']; [now rewrite H' | exact H'].
Qed.

(** X16.  Publishing a complete form: the form is cleared, the earlier
    error is gone, the success message is the one alert shown, and the
    handler has done three things in this order: cancelled the browser's
    own submit, sent the request, and set the 800 ms timer whose
    navigation target, "/home", is routed to the feed. *)
Theorem publish_returns_to_feed
  (today : string) (response : JS.AxiosResponse) (s : BlogEditor.State) :
  Spec.complete (BlogEditor.formValues s) ->
  BlogEditor.formValues
    (Handler.state (Handler.run (BlogEditor.handleSubmit env today (Fulfilled response)) s))
    = BlogEditor.emptyForm /\
  BlogEditor.alerts
    (Handler.state (Handler.run (BlogEditor.handleSubmit env today (Fulfilled response)) s))
    = [BlogEditor.SuccessAlert "Blog post published."] /\
  (exists body,
     Handler.effects (Handler.run (BlogEditor.handleSubmit env today (Fulfilled response)) s)
       = [PreventDefault;
          HttpPost (BlogEditor.API_BASE env ++ "/blogpost/")%string body;
          SetTimeout (NavigateTo "/home") 800]) /\
  App.shows "/home" = Some App.HomePage.
Proof.
  intros Hc. run_editor. rewrite (complete_passes _ Hc). simpl.
  repeat split. eexists. reflexivity.
Qed.

End ComposerRuns.

(** X17.  Edits to two different fields can arrive in either order, and
    of two edits to the same field the later one wins. *)
Theorem handleChange_order (s : BlogEditor.State) (e1 e2 : BlogEditor.ChangeEvent) :
  (BlogEditor.name e1 <> BlogEditor.name e2 ->
   Handler.state (Handler.run (BlogEditor.handleChange e2)
     (Handler.state (Handler.run (BlogEditor.handleChange e1) s)))
   = Handler.state (Handler.run (BlogEditor.handleChange e1)
       (Handler.state (Handler.run (BlogEditor.handleChange e2) s)))) /\
  (BlogEditor.name e1 = BlogEditor.name e2 ->
   Handler.state (Handler.run (BlogEditor.handleChange e2)
     (Handler.state (Handler.run (BlogEditor.handleChange e1) s)))
   = Handler.state (Handler.run (BlogEditor.handleChange e2) s)).
Proof.
  destruct e1 as [n1 v1], e2 as [n2 v2]. simpl.
  run_editor. unfold BlogEditor.assign. split; intros Hn.
  - repeat match goal with
           | |- context [String.eqb ?a ?b] =>
               destruct (String.eqb_spec a b); subst; try congruence
           end; reflexivity.
  - subst n2.
    repeat match goal with
           | |- context [String.eqb ?a ?b] =>
               destruct (String.eqb_spec a b); subst; try congruence
           end; reflexivity.
Qed.

(* ================================================================== *)
(** * Further properties: the cards *)
(* ================================================================== *)

Lemma append_length (s t : string) :
  String.length (s ++ t)%string = (String.length s + String.length t)%nat.
Proof. induction s as [|c s IH]; simpl; [reflexivity | now rewrite IH]. Qed.

Lemma append_cancel_r (s1 s2 t : string) :
  (s1 ++ t)%string = (s2 ++ t)%string -> s1 = s2.
Proof.
  revert s2. induction s1 as [|c s1 IH]; intros [|d s2] H; simpl in H.
  - reflexivity.
  - apply (f_equal String.length) in H. simpl in H. rewrite append_length in H. lia.
  - apply (f_equal String.length) in H. simpl in H. rewrite append_length in H. lia.
  - injection H as -> H. f_equal. now apply IH.
Qed.

Lemma Number_toString_inj (n m : nat) :
  BlogCard.Number_toString n = BlogCard.Number_toString m -> n = m.
Proof.
  unfold BlogCard.Number_toString. intros H.
  apply (f_equal NilEmpty.uint_of_string) in H. rewrite !NilEmpty.usu in H.
  injection H as H. now apply Unsigned.to_uint_inj.
Qed.

Lemma coverImage_given (post : Blog.BlogPost) (img : string) :
  Blog.image post = Some img -> Spec.isBlank img = false ->
  BlogCard.coverImage post = img.
Proof.
  intros Himg Hb. unfold BlogCard.coverImage. rewrite Himg.
  destruct (JS.nonEmpty img) eqn:Hne.
  - destruct (Nat.eqb (String.length (JS.trim img)) 0) eqn:Hlen; [|reflexivity].
    apply length_zero, trim_empty in Hlen. congruence.
  - apply nonEmpty_false in Hne. subst img. discriminate.
Qed.

Section CardFacts.
Variable getTime : string -> JS.Number.
Variable toLocaleDateString : Z -> string.

Local Abbreviation render := (BlogCard.render getTime toLocaleDateString).

(** X18.  The comment badge is shown exactly when [hasComments] is an
    array (not when it is absent or [null]); it then reads the length of
    the array followed by " comments", so two cards show the same badge
    only for the same number of comments. *)
Theorem badge_counts_comments (post other : Blog.BlogPost) (expanded : bool) :
  (BlogCard.meta (render post expanded) = None
   <-> Blog.hasComments post = None \/ Blog.hasComments post = Some None) /\
  (forall comments,
     Blog.hasComments post = Some (Some comments) ->
     BlogCard.meta (render post expanded)
       = Some (BlogCard.Number_toString (List.length comments) ++ " comments")%string) /\
  (forall comments comments',
     Blog.hasComments post = Some (Some comments) ->
     Blog.hasComments other = Some (Some comments') ->
     BlogCard.meta (render post expanded) = BlogCard.meta (render other expanded) ->
     List.length comments = List.length comments').
Proof.
  unfold BlogCard.render. cbn [BlogCard.meta]. split; [|split].
  - destruct (Blog.hasComments post) as [[comments|]|]; split;
      try discriminate; try tauto.
    intros [H|H]; discriminate.
  - now intros comments ->.
  - intros comments comments' -> -> H. injection H as H.
    apply append_cancel_r in H. now apply Number_toString_inj.
Qed.

(** X19.  What the composer sends is what the card shows: for every
    create body a submit can send, the card of the post stored from it
    has that body's image as cover (never the fallback in its place),
    its content as text, its title as heading, its author, and the
    badge "0 comments". *)
Theorem card_shows_what_was_sent
  (env : option string) (today : string) (settles : Settled JS.AxiosResponse)
  (s : BlogEditor.State) (url : string) (sent : Payload) (n : Z) (expanded : bool) :
  In (HttpPost url sent)
     (Handler.effects (Handler.run (BlogEditor.handleSubmit env today settles) s)) ->
  BlogCard.media (render (Spec.stored n sent) expanded) = payload_image sent /\
  BlogCard.body (render (Spec.stored n sent) expanded) = payload_content sent /\
  BlogCard.heading (render (Spec.stored n sent) expanded) = payload_title sent /\
  BlogCard.author (render (Spec.stored n sent) expanded) = payload_authorName sent /\
  BlogCard.meta (render (Spec.stored n sent) expanded) = Some "0 comments".
Proof.
  intros Hin.
  destruct (incomplete_dec (BlogEditor.formValues s)) as [Hinc|Hc].
  { rewrite (handleSubmit_incomplete env today settles s Hinc) in Hin.
    destruct Hin as [H|[]]. discriminate. }
  change (Spec.complete (BlogEditor.formValues s)) in Hc.
  assert (Hsent : sent =
    {| payload_title := JS.trim (BlogEditor.title (BlogEditor.formValues s));
       payload_authorName := JS.trim (BlogEditor.authorName (BlogEditor.formValues s));
       payload_content := JS.trim (BlogEditor.content (BlogEditor.formValues s));
       payload_image :=
         if JS.nonEmpty (JS.trim (BlogEditor.image (BlogEditor.formValues s)))
         then JS.trim (BlogEditor.image (BlogEditor.formValues s))
         else BlogEditor.DEFAULT_IMAGE;
       payload_timestamp := today;
       payload_hasComments := [] |}).
  { revert Hin. run_editor. rewrite (complete_passes _ Hc).
    destruct settles as [response|reason]; simpl.
    - intros [H|[H|[H|[]]]]; try discriminate. now injection H.
    - destruct reason as [[response|]| |name]; simpl;
        try (intros [H|[H|[]]]; try discriminate; now injection H).
      destruct (JS.get (JS.data response) "detail"); simpl;
        intros [H|[H|[]]]; try discriminate; now injection H. }
  subst sent. unfold BlogCard.render, Spec.stored.
  cbn [BlogCard.media BlogCard.body BlogCard.heading BlogCard.author BlogCard.meta
       Blog.content Blog.title Blog.authorName Blog.hasComments
       payload_title payload_authorName payload_content payload_image payload_hasComments].
  split; [|split; [apply trim_idempotent | repeat split]].
  apply coverImage_given; [reflexivity|].
  destruct (JS.nonEmpty (JS.trim (BlogEditor.image (BlogEditor.formValues s)))) eqn:Hne.
  - destruct (Spec.isBlank (JS.trim (BlogEditor.image (BlogEditor.formValues s)))) eqn:Hb;
      [|reflexivity].
    apply trim_empty in Hb. rewrite trim_idempotent in Hb.
    apply nonEmpty_false in Hb. congruence.
  - vm_compute. reflexivity.
Qed.

End CardFacts.

(* ================================================================== *)
(** * Further properties: the routes *)
(* ================================================================== *)

(** X21.  Routing never comes up empty: a pathname without
    percent-encoded characters shows the feed when it matches "/home",
    the curated page when it matches "/blogpost" (and not "/home"), and
    the feed again, after the redirect, in every other case. *)
Theorem shows_by_path (pathname : string) :
  Spec.plain pathname = true ->
  App.shows pathname
    = Some (if App.matchPath "/home" pathname then App.HomePage
            else if App.matchPath "/blogpost" pathname then App.BlogpostPage
                 else App.HomePage).
Proof.
  intros _.
  unfold App.shows. change (List.length App.routes) with 4%nat.
  cbn [App.rendered]. unfold App.routes.
  cbn [App.matchRoutes App.path App.element].
  destruct (App.matchPath "/home" pathname); [reflexivity|].
  destruct (App.matchPath "/blogpost" pathname); [reflexivity|].
  destruct (App.matchPath "/" pathname); reflexivity.
Qed.

(* ================================================================== *)
(** * Concrete cases of the further properties *)
(* ================================================================== *)

Lemma handleSubmit_sends_trimmed_witness :
  Spec.complete (BlogEditor.formValues Spec.filled) /\
  exists body,
    Spec.requests (Handler.effects (Handler.run
      (BlogEditor.handleSubmit None "2026-01-01" (Fulfilled (JS.mkResponse 201 JS.Null)))
      Spec.filled))
      = [HttpPost (Home.API_BASE None ++ "/blogpost/")%string body] /\
    payload_title body = JS.trim (BlogEditor.title (BlogEditor.formValues Spec.filled)).
Proof.
  assert (Hc : Spec.complete (BlogEditor.formValues Spec.filled))
    by (repeat split; vm_compute; discriminate).
  split; [exact Hc|].
  destruct (handleSubmit_sends_trimmed None "2026-01-01"
              (Fulfilled (JS.mkResponse 201 JS.Null)) Spec.filled Hc)
    as (body & Hreq & Htitle & _).
  exists body. split; assumption.
Defined.

Lemma handleSubmit_failure_keeps_form_witness :
  Spec.complete (BlogEditor.formValues Spec.filled) /\
  BlogEditor.formValues (Handler.state (Handler.run
    (BlogEditor.handleSubmit None "2026-01-01" (Rejected (JS.AxiosError None))) Spec.filled))
    = BlogEditor.formValues Spec.filled.
Proof.
  assert (Hc : Spec.complete (BlogEditor.formValues Spec.filled))
    by (repeat split; vm_compute; discriminate).
  split; [exact Hc|].
  apply (proj1 (handleSubmit_failure_keeps_form None "2026-01-01"
                  (JS.AxiosError None) Spec.filled Hc)).
Defined.

Lemma resubmit_after_success_is_local_witness :
  Spec.complete (BlogEditor.formValues Spec.filled) /\
  Spec.requests
    (Handler.effects (Handler.run
       (BlogEditor.handleSubmit None "2026-01-01" (Fulfilled (JS.mkResponse 201 JS.Null)))
       (Handler.state (Handler.run
          (BlogEditor.handleSubmit None "2026-01-01" (Fulfilled (JS.mkResponse 201 JS.Null)))
          Spec.filled)))) = [].
Proof.
  assert (Hc : Spec.complete (BlogEditor.formValues Spec.filled))
    by (repeat split; vm_compute; discriminate).
  split; [exact Hc|].
  apply (proj1 (resubmit_after_success_is_local None "2026-01-01" "2026-01-01"
                  (JS.mkResponse 201 JS.Null) (Fulfilled (JS.mkResponse 201 JS.Null))
                  Spec.filled Hc)).
Defined.

Lemma success_message_stays_witness :
  BlogEditor.success (BlogEditor.after None
    [BlogEditor.Change {| BlogEditor.name := "title"; BlogEditor.value := "Notes" |};
     BlogEditor.Change {| BlogEditor.name := "authorName"; BlogEditor.value := "Ada" |};
     BlogEditor.Change {| BlogEditor.name := "content"; BlogEditor.value := "Body" |};
     BlogEditor.Submit "2026-01-01" (Fulfilled (JS.mkResponse 201 JS.Null))])
    = Some "Blog post published." /\
  BlogEditor.success (BlogEditor.after None
    ([BlogEditor.Change {| BlogEditor.name := "title"; BlogEditor.value := "Notes" |};
      BlogEditor.Change {| BlogEditor.name := "authorName"; BlogEditor.value := "Ada" |};
      BlogEditor.Change {| BlogEditor.name := "content"; BlogEditor.value := "Body" |};
      BlogEditor.Submit "2026-01-01" (Fulfilled (JS.mkResponse 201 JS.Null))]
     ++ [BlogEditor.Submit "2026-01-02" (Rejected (JS.AxiosError None))]))
    = Some "Blog post published.".
Proof.
  assert (H : BlogEditor.success (BlogEditor.after None
    [BlogEditor.Change {| BlogEditor.name := "title"; BlogEditor.value := "Notes" |};
     BlogEditor.Change {| BlogEditor.name := "authorName"; BlogEditor.value := "Ada" |};
     BlogEditor.Change {| BlogEditor.name := "content"; BlogEditor.value := "Body" |};
     BlogEditor.Submit "2026-01-01" (Fulfilled (JS.mkResponse 201 JS.Null))])
    = Some "Blog post published.") by (vm_compute; reflexivity).
  split; [exact H|].
  apply (success_message_stays None _
           [BlogEditor.Submit "2026-01-02" (Rejected (JS.AxiosError None))] _ H).
Defined.

Lemma publish_returns_to_feed_witness :
  Spec.complete (BlogEditor.formValues Spec.filled) /\
  BlogEditor.formValues (Handler.state (Handler.run
    (BlogEditor.handleSubmit None "2026-01-01" (Fulfilled (JS.mkResponse 201 JS.Null)))
    Spec.filled)) = BlogEditor.emptyForm.
Proof.
  assert (Hc : Spec.complete (BlogEditor.formValues Spec.filled))
    by (repeat split; vm_compute; discriminate).
  split; [exact Hc|].
  apply (proj1 (publish_returns_to_feed None "2026-01-01"
                  (JS.mkResponse 201 JS.Null) Spec.filled Hc)).
Defined.

Lemma card_shows_what_was_sent_witness :
  In (HttpPost "http://localhost:8000/blogpost/"
        {| payload_title := "Notes"; payload_authorName := "Ada";
           payload_content := "Body"; payload_image := BlogEditor.DEFAULT_IMAGE;
           payload_timestamp := "2026-01-01"; payload_hasComments := [] |})
     (Handler.effects (Handler.run
        (BlogEditor.handleSubmit None "2026-01-01" (Fulfilled (JS.mkResponse 201 JS.Null)))
        Spec.filled)) /\
  BlogCard.media
    (BlogCard.render JS.isoDateTime (fun _ => "1 Jan 2026")
       (Spec.stored 7
          {| payload_title := "Notes"; payload_authorName := "Ada";
             payload_content := "Body"; payload_image := BlogEditor.DEFAULT_IMAGE;
             payload_timestamp := "2026-01-01"; payload_hasComments := [] |})
       false)
    = BlogEditor.DEFAULT_IMAGE.
Proof.
  assert (H : In (HttpPost "http://localhost:8000/blogpost/"
        {| payload_title := "Notes"; payload_authorName := "Ada";
           payload_content := "Body"; payload_image := BlogEditor.DEFAULT_IMAGE;
           payload_timestamp := "2026-01-01"; payload_hasComments := [] |})
     (Handler.effects (Handler.run
        (BlogEditor.handleSubmit None "2026-01-01" (Fulfilled (JS.mkResponse 201 JS.Null)))
        Spec.filled))) by (right; left; reflexivity).
  split; [exact H|].
  apply (proj1 (card_shows_what_was_sent JS.isoDateTime (fun _ => "1 Jan 2026")
                  None "2026-01-01" (Fulfilled (JS.mkResponse 201 JS.Null)) Spec.filled
                  _ _ 7 false H)).
Defined.

Lemma unknown_path_redirects_witness :
  (Spec.plain "/blog/archive" = true /\
   App.matchPath "/home" "/blog/archive" = false /\
   App.matchPath "/blogpost" "/blog/archive" = false) /\
  App.matchRoutes App.routes "/blog/archive" = Some (App.Navigate "/home") /\
  App.shows "/blog/archive" = Some App.HomePage.
Proof.
  split; [repeat split; reflexivity|].
  apply (unknown_path_redirects "/blog/archive"); reflexivity.
Defined.

Lemma shows_by_path_witness :
  Spec.plain "/Blogpost/" = true /\
  App.shows "/Blogpost/"
    = Some (if App.matchPath "/home" "/Blogpost/" then App.HomePage
            else if App.matchPath "/blogpost" "/Blogpost/" then App.BlogpostPage
                 else App.HomePage).
Proof.
  split; [reflexivity|].
  apply (shows_by_path "/Blogpost/"). reflexivity.
Defined.
